(** * Local upload resolution and batch deletion ([app/utils/images.py])

    A shallow embedding of the functions of the module ([_is_subpath],
    [_strip_slashes], [local_upload_path_from_url],
    [delete_local_uploads]) together with the part of the Python runtime
    they call: [str] methods, [urllib.parse.urlparse], the pure part of
    [pathlib] (POSIX flavour) and an abstract operating-system interface
    for the calls that touch the filesystem.

    Conventions.
    - A Python [str] is a [string]; a character is a code point below 256.
    - A Python exception is a value [Raise e] of the [result] monad; a
      [try ... except Exception] is a [match] on that value.
    - The filesystem is threaded explicitly: operations that read it take
      the state, [os_unlink] returns the new one. *)

From Stdlib Require Import String Ascii List Bool Arith ZArith Lia.
Import ListNotations.
Open Scope string_scope.
Open Scope list_scope.

Set Implicit Arguments.

(* ------------------------------------------------------------------ *)
(** ** Exceptions *)

Inductive errno : Set :=
  | ENOENT | ENOTDIR | EBADF | ELOOP | EACCES | EPERM | EISDIR | EBUSY
  | EROFS | ENAMETOOLONG | EIO.

(** Every constructor is a subclass of [Exception]. *)
Inductive exn : Set :=
  | ValueError
  | TypeError
  | RuntimeError
  | OSError (e : errno).

Inductive result (A : Type) : Type :=
  | Ok (a : A)
  | Raise (e : exn).

Arguments Ok {A} a.
Arguments Raise {A} e.

Definition bind {A B : Type} (m : result A) (k : A -> result B) : result B :=
  match m with
  | Ok a => k a
  | Raise e => Raise e
  end.

Declare Scope py_scope.
Delimit Scope py_scope with py.
Notation "x <- m ;; k" := (bind m (fun x => k))
  (at level 61, m at next level, right associativity) : py_scope.
Notation "' pat <- m ;; k" := (bind m (fun x => match x with pat => k end))
  (at level 61, pat pattern, m at next level, right associativity) : py_scope.
Open Scope py_scope.

(** [try: body except Exception: handler]. *)
Definition try_except {A : Type} (body : result A) (handler : exn -> result A)
  : result A :=
  match body with
  | Ok a => Ok a
  | Raise e => handler e
  end.

(* ------------------------------------------------------------------ *)
(** ** Python values reaching the module *)

#[warnings="-register-all"]
Inductive PyVal : Type :=
  | PyNone
  | PyBool (b : bool)
  | PyInt (n : Z)
  | PyStr (s : string)
  | PyBytes (b : list Byte.byte)
  | PyList (l : list PyVal).

(** [bool(v)]. *)
Definition truthy (v : PyVal) : bool :=
  match v with
  | PyNone => false
  | PyBool b => b
  | PyInt n => negb (Z.eqb n 0)
  | PyStr s => negb (s =? "")
  | PyBytes b => match b with [] => false | _ => true end
  | PyList l => match l with [] => false | _ => true end
  end.

(** [isinstance(v, str)]. *)
Definition isinstance_str (v : PyVal) : bool :=
  match v with
  | PyStr _ => true
  | _ => false
  end.

(* ------------------------------------------------------------------ *)
(** ** [str] methods *)

Module Str.

Definition code (c : ascii) : nat := nat_of_ascii c.

Definition between (lo hi n : nat) : bool := Nat.leb lo n && Nat.leb n hi.

(** [c.isspace()] for a code point below 256. *)
Definition isspace (c : ascii) : bool :=
  let n := code c in
  between 9 13 n || between 28 32 n || Nat.eqb n 133 || Nat.eqb n 160.

Fixpoint lstrip_by (f : ascii -> bool) (s : string) : string :=
  match s with
  | String c r => if f c then lstrip_by f r else s
  | EmptyString => EmptyString
  end.

Fixpoint rstrip_by (f : ascii -> bool) (s : string) : string :=
  match s with
  | String c r =>
      let r' := rstrip_by f r in
      if (r' =? "") && f c then "" else String c r'
  | EmptyString => EmptyString
  end.

(** [s.strip()]. *)
Definition strip (s : string) : string :=
  rstrip_by isspace (lstrip_by isspace s).

Fixpoint mem (c : ascii) (chars : string) : bool :=
  match chars with
  | String a r => (a =? c)%char || mem c r
  | EmptyString => false
  end.

(** [s.lstrip(chars)]. *)
Definition lstrip (s chars : string) : string :=
  lstrip_by (fun c => mem c chars) s.

(** [s.startswith(pre)]. *)
Definition startswith (s pre : string) : bool := String.prefix pre s.

Fixpoint drop (n : nat) (s : string) : string :=
  match n, s with
  | O, _ => s
  | S n', String _ r => drop n' r
  | S _, EmptyString => EmptyString
  end.

Fixpoint take (n : nat) (s : string) : string :=
  match n, s with
  | O, _ => EmptyString
  | S n', String c r => String c (take n' r)
  | S _, EmptyString => EmptyString
  end.

(** [s.removeprefix(pre)]. *)
Definition removeprefix (s pre : string) : string :=
  if startswith s pre then drop (String.length pre) s else s.

Fixpoint map (f : ascii -> ascii) (s : string) : string :=
  match s with
  | String c r => String (f c) (map f r)
  | EmptyString => EmptyString
  end.

(** [s.replace(a, b)] for one-character [a] and [b]. *)
Definition replace (s : string) (a b : ascii) : string :=
  map (fun c => if (c =? a)%char then b else c) s.

(** [s.replace(a, "")] for every character [a] satisfying [f]. *)
Fixpoint remove_by (f : ascii -> bool) (s : string) : string :=
  match s with
  | String c r => if f c then remove_by f r else String c (remove_by f r)
  | EmptyString => EmptyString
  end.

(** [s.find(c)]; [None] stands for [-1]. *)
Fixpoint find (c : ascii) (s : string) : option nat :=
  match s with
  | String a r =>
      if (a =? c)%char then Some 0 else option_map S (find c r)
  | EmptyString => None
  end.

(** [s.rfind(c)]. *)
Fixpoint rfind (c : ascii) (s : string) : option nat :=
  match s with
  | String a r =>
      match rfind c r with
      | Some i => Some (S i)
      | None => if (a =? c)%char then Some 0 else None
      end
  | EmptyString => None
  end.

Definition contains (c : ascii) (s : string) : bool := mem c s.

(** The part of [s] before the first character satisfying [f], and
    the rest starting at that character. *)
Fixpoint break (f : ascii -> bool) (s : string) : string * string :=
  match s with
  | String c r =>
      if f c then (EmptyString, s)
      else let (a, b) := break f r in (String c a, b)
  | EmptyString => (EmptyString, EmptyString)
  end.

(** [s.split(c)]. *)
Fixpoint split (c : ascii) (s : string) : list string :=
  match s with
  | String a r =>
      if (a =? c)%char then EmptyString :: split c r
      else match split c r with
           | x :: xs => String a x :: xs
           | [] => [String a EmptyString]
           end
  | EmptyString => [EmptyString]
  end.

(** [sep.join(l)]. *)
Definition join (sep : string) (l : list string) : string :=
  String.concat sep l.

Definition lower_char (c : ascii) : ascii :=
  let n := code c in
  if between 65 90 n then ascii_of_nat (n + 32) else c.

(** [s.lower()] on ASCII text. *)
Definition lower (s : string) : string := map lower_char s.

Fixpoint forallb (f : ascii -> bool) (s : string) : bool :=
  match s with
  | String c r => f c && forallb f r
  | EmptyString => true
  end.

Definition is_ascii_alpha (c : ascii) : bool :=
  between 65 90 (code c) || between 97 122 (code c).

Definition is_digit (c : ascii) : bool :=
  between 48 57 (code c).

(** An embedded NUL, which no system call accepts. *)
Definition has_nul (s : string) : bool := contains Ascii.zero s.

End Str.

(* ------------------------------------------------------------------ *)
(** ** [pathlib]: pure POSIX paths

    [root] is [""], ["/"] or ["//"]; [parts] are the segments after the
    root.  Parsing drops empty segments and ["."], and keeps [".."]. *)

Record Path : Type := mkPath { root : string; parts : list string }.

Module Pathlib.

(** [_PosixFlavour.splitroot]. *)
Definition splitroot (part : string) : string * string :=
  match part with
  | String c _ =>
      if (c =? "/")%char then
        let stripped := Str.lstrip part "/" in
        if Nat.eqb (String.length part - String.length stripped) 2
        then ("//", stripped)
        else ("/", stripped)
      else ("", part)
  | EmptyString => ("", part)
  end.

Definition keep_segment (x : string) : bool :=
  negb (x =? "") && negb (x =? ".").

(** [parse_parts] on a single string. *)
Definition parse (s : string) : Path :=
  let (r, rel) := splitroot s in
  mkPath r (filter keep_segment (Str.split "/" rel)).

(** [join_parsed_parts]: an anchored right operand replaces the left. *)
Definition joinpath (p : Path) (s : string) : Path :=
  let q := parse s in
  if root q =? "" then mkPath (root p) (parts p ++ parts q) else q.

(** [p / key]: [os.fspath] rejects anything that is not a [str]. *)
Definition truediv (p : Path) (key : PyVal) : result Path :=
  match key with
  | PyStr s => Ok (joinpath p s)
  | _ => Raise TypeError
  end.

(** [str(p)]. *)
Definition str (p : Path) : string :=
  let s := (root p ++ Str.join "/" (parts p))%string in
  if s =? "" then "." else s.

Fixpoint is_prefix (xs ys : list string) : bool :=
  match xs, ys with
  | [], _ => true
  | x :: xs', y :: ys' => (x =? y) && is_prefix xs' ys'
  | _ :: _, [] => false
  end.

(** [self.relative_to(other)]: [ValueError] unless [other] is [self]
    or one of its ancestors. *)
Definition relative_to (self other : Path) : result Path :=
  if (root self =? root other) && is_prefix (parts other) (parts self)
  then Ok (mkPath "" (skipn (List.length (parts other)) (parts self)))
  else Raise ValueError.

(** The segments a relative string contributes to a path. *)
Definition segments (s : string) : list string :=
  filter keep_segment (Str.split "/" s).

(** Lexical resolution of [..] against the segments kept so far
    (innermost first); the parent of the root is the root. *)
Fixpoint collapse_onto (stack segs : list string) : list string :=
  match segs with
  | [] => rev stack
  | x :: r =>
      if x =? ".." then collapse_onto (tl stack) r
      else collapse_onto (x :: stack) r
  end.

Definition collapse (segs : list string) : list string :=
  collapse_onto [] segs.

(** No [..] of [segs] climbs above a directory [depth] levels below
    the starting point. *)
Fixpoint stays_below (depth : nat) (segs : list string) : bool :=
  match segs with
  | [] => true
  | x :: r =>
      if x =? ".." then
        match depth with
        | O => false
        | S d => stays_below d r
        end
      else stays_below (S depth) r
  end.

(** The relative string has no traversal segment that escapes the
    directory it is joined to. *)
Definition traversal_safe (rel : string) : bool :=
  stays_below 0 (segments rel).

End Pathlib.

Notation "p // s" := (Pathlib.joinpath p s) (at level 40, left associativity).

(* ------------------------------------------------------------------ *)
(** ** The platform: filesystem calls and what the interpreter leaves open *)

Class Platform : Type := {
  (** filesystem states *)
  fs : Type;
  (** [Path.resolve()]: the canonical absolute path, symlinks and
      relative segments resolved; raises on a symlink loop, an embedded
      NUL byte, ... *)
  resolve : fs -> Path -> result Path;
  (** [os.stat(path)] *)
  os_stat : fs -> string -> result unit;
  (** [os.unlink(path)] *)
  os_unlink : fs -> string -> result fs;
  (** the order in which [for u in set(l)] visits the set built from [l] *)
  set_iter : list string -> list string;
  (** [urlsplit]'s validation of a netloc with a bracketed host, which
      differs between interpreter versions *)
  bracketed_netloc_ok : string -> bool;
  (** [_checknetloc]'s test on a netloc that is not ASCII, given the
      netloc without its [@], [:], [#] and [?]: the NFKC normal form
      differs from it and holds one of [/?#@:] *)
  nfkc_gains_delimiter : string -> bool;
  (** [Path(__file__).resolve().parents[2]] *)
  BASE_DIR : Path
}.

(** What a Python [set] guarantees about [set_iter]. *)
Definition set_semantics (P : Platform) : Prop :=
  forall l : list string,
    NoDup (set_iter l) /\ (forall x, In x (set_iter l) <-> In x l).

(* ------------------------------------------------------------------ *)
(** ** [urllib.parse.urlparse] *)

Record ParseResult : Type := mkParseResult {
  scheme : string; netloc : string; path : string;
  params : string; query : string; fragment : string
}.

Module Urllib.

Definition uses_params : list string :=
  [""; "ftp"; "hdl"; "prospero"; "http"; "imap"; "https"; "shttp";
   "rtsp"; "rtspu"; "sip"; "sips"; "mms"; "sftp"; "tel"].

Definition is_scheme_char (c : ascii) : bool :=
  Str.is_ascii_alpha c || Str.is_digit c
  || (c =? "+")%char || (c =? "-")%char || (c =? ".")%char.

(** [_WHATWG_C0_CONTROL_OR_SPACE] *)
Definition is_c0_or_space (c : ascii) : bool := Nat.leb (Str.code c) 32.

(** [_UNSAFE_URL_BYTES_TO_REMOVE] *)
Definition is_unsafe (c : ascii) : bool :=
  Nat.eqb (Str.code c) 9 || Nat.eqb (Str.code c) 13 || Nat.eqb (Str.code c) 10.

Definition split_scheme (url : string) : string * string :=
  match Str.find ":" url, url with
  | Some i, String c0 _ =>
      if Nat.ltb 0 i && Str.is_ascii_alpha c0
         && Str.forallb is_scheme_char (Str.take i url)
      then (Str.lower (Str.take i url), Str.drop (S i) url)
      else ("", url)
  | _, _ => ("", url)
  end.

Definition is_netloc_delim (c : ascii) : bool :=
  (c =? "/")%char || (c =? "?")%char || (c =? "#")%char.

(** [_splitnetloc(url, 2)] *)
Definition _splitnetloc (url : string) : string * string :=
  Str.break is_netloc_delim (Str.drop 2 url).

(** [url.split(c, 1)] when [c in url]. *)
Definition split_once (c : ascii) (url : string) : string * string :=
  match Str.find c url with
  | Some i => (Str.take i url, Str.drop (S i) url)
  | None => (url, "")
  end.

Section WithPlatform.
Context {P : Platform}.

Definition is_ascii (c : ascii) : bool := Nat.leb (Str.code c) 127.

(** [_checknetloc]: an empty or ASCII netloc passes; another one is
    rejected when its NFKC normal form gains a delimiter. *)
Definition _checknetloc (netloc : string) : result unit :=
  if (netloc =? "") || Str.forallb is_ascii netloc then Ok tt
  else if nfkc_gains_delimiter
            (Str.remove_by (fun c => Str.mem c "@:#?") netloc)
       then Raise ValueError
       else Ok tt.

(** [urlsplit]. *)
Definition urlsplit (url : string)
  : result (string * string * string * string * string) :=
  let url := Str.lstrip_by is_c0_or_space url in
  let url := Str.remove_by is_unsafe url in
  let (scheme, url) := split_scheme url in
  '(netloc, url) <-
    (if Str.startswith url "//" then
       let (netloc, rest) := _splitnetloc url in
       let has_open := Str.contains "[" netloc in
       let has_close := Str.contains "]" netloc in
       if (has_open && negb has_close) || (has_close && negb has_open)
       then Raise ValueError
       else if has_open && has_close && negb (bracketed_netloc_ok netloc)
       then Raise ValueError
       else Ok (netloc, rest)
     else Ok ("", url)) ;;
  let (url, fragment) := split_once "#" url in
  let (url, query) := split_once "?" url in
  _ <- _checknetloc netloc ;;
  Ok (scheme, netloc, url, query, fragment).

Definition _splitparams (url : string) : string * string :=
  match Str.rfind "/" url with
  | Some j =>
      match Str.find ";" (Str.drop j url) with
      | Some k => (Str.take (j + k) url, Str.drop (S (j + k)) url)
      | None => (url, "")
      end
  | None =>
      match Str.find ";" url with
      | Some i => (Str.take i url, Str.drop (S i) url)
      | None => (Str.take (String.length url - 1) url, url)
      end
  end.

Definition urlparse (url : string) : result ParseResult :=
  '(scheme, netloc, url, query, fragment) <- urlsplit url ;;
  let (url, params) :=
    if existsb (String.eqb scheme) uses_params && Str.contains ";" url
    then _splitparams url
    else (url, "") in
  Ok (mkParseResult scheme netloc url params query fragment).

End WithPlatform.

End Urllib.

(* ------------------------------------------------------------------ *)
(** ** [pathlib]: the methods that reach the operating system *)

Section PathIO.
Context {P : Platform}.

(** [_IGNORED_ERRNOS] *)
Definition ignore_error (e : errno) : bool :=
  match e with
  | ENOENT | ENOTDIR | EBADF | ELOOP => true
  | _ => false
  end.

(** [p.exists()] *)
Definition Path_exists (s : fs) (p : Path) : result bool :=
  match os_stat s (Pathlib.str p) with
  | Ok _ => Ok true
  | Raise (OSError e) => if ignore_error e then Ok false else Raise (OSError e)
  | Raise ValueError => Ok false
  | Raise e => Raise e
  end.

(** [p.unlink(missing_ok)] *)
Definition Path_unlink (missing_ok : bool) (s : fs) (p : Path) : result fs :=
  match os_unlink s (Pathlib.str p) with
  | Raise (OSError ENOENT) =>
      if missing_ok then Ok s else Raise (OSError ENOENT)
  | r => r
  end.

End PathIO.

(* ------------------------------------------------------------------ *)
(** ** The module [app/utils/images.py] *)

Section Images.
Context {P : Platform}.

Definition DATA_DIR : Path := BASE_DIR // "data".

Definition UPLOADS_DIR : Path := DATA_DIR // "uploads".

Definition _is_subpath (s : fs) (p parent : Path) : bool :=
  match (rp <- resolve s p ;;
         rparent <- resolve s parent ;;
         Pathlib.relative_to rp rparent) with
  | Ok _ => true
  | Raise _ => false
  end.

Definition _strip_slashes (s : PyVal) : PyVal :=
  match s with
  | PyStr x => PyStr (Str.lstrip x "/\")
  | _ => s
  end.

(** The [try] body of the URL branch may [return]: its value is
    [Some r] when it returned [r] and [None] when control fell through
    to the final [return None].  The last case of the [match] is never
    reached: the first test has sent every value that is not a [str]
    away. *)
Definition local_upload_path_from_url (s : fs) (url : PyVal)
  : result (option Path) :=
  if negb (truthy url) || negb (isinstance_str url) then Ok None
  else
    match url with
    | PyStr url =>
        let u := Str.strip url in
        if Str.startswith u "/uploads/" then
          let relative_path :=
            _strip_slashes (PyStr (Str.removeprefix u "/uploads/")) in
          p <- Pathlib.truediv UPLOADS_DIR relative_path ;;
          Ok (if _is_subpath s p UPLOADS_DIR then Some p else None)
        else
          returned <-
            try_except
              (uu <- Urllib.urlparse u ;;
               let path :=
                 Str.replace (if path uu =? "" then "" else path uu)
                             "\" "/" in
               if Str.startswith path "/uploads/" then
                 let relative_path :=
                   _strip_slashes
                     (PyStr (Str.removeprefix path "/uploads/")) in
                 p <- Pathlib.truediv UPLOADS_DIR relative_path ;;
                 Ok (Some
                       (if _is_subpath s p UPLOADS_DIR then Some p
                        else None))
               else Ok None)
              (fun _ => Ok None) ;;
          match returned with
          | Some r => Ok r
          | None => Ok None
          end
    | _ => Ok None
    end.

(** [[x for x in urls if isinstance(x, str) and x.strip()]] *)
Definition string_urls (urls : list PyVal) : list string :=
  flat_map
    (fun x =>
       match x with
       | PyStr x' =>
           if isinstance_str x && truthy (PyStr (Str.strip x'))
           then [x'] else []
       | _ => []
       end)
    urls.

(** One iteration of the [for] loop. *)
Definition delete_one (st : fs * list string * list string) (u : string)
  : result (fs * list string * list string) :=
  let '(s, removed, candidates) := st in
  p <- local_upload_path_from_url s (PyStr u) ;;
  match p with
  | None => Ok (s, removed, candidates)
  | Some p =>
      let candidates := candidates ++ [Pathlib.str p] in
      try_except
        (e <- Path_exists s p ;;
         if e then
           s' <- Path_unlink true s p ;;
           Ok (s', removed ++ [Pathlib.str p], candidates)
         else Ok (s, removed, candidates))
        (fun _ => Ok (s, removed, candidates))
  end.

Fixpoint delete_loop (us : list string)
         (st : fs * list string * list string)
  : result (fs * list string * list string) :=
  match us with
  | [] => Ok st
  | u :: us' => st' <- delete_one st u ;; delete_loop us' st'
  end.

(** Returns [(removed, candidates)] and the filesystem it leaves. *)
Definition delete_local_uploads (s : fs) (urls : list PyVal)
  : result (list string * list string * fs) :=
  let unique_urls := set_iter (string_urls urls) in
  '(s', removed, candidates) <- delete_loop unique_urls (s, [], []) ;;
  Ok (removed, candidates, s').

End Images.

(* ------------------------------------------------------------------ *)
(** ** A platform without symbolic links

    An in-memory filesystem: a table from canonical absolute paths to
    directories and regular files.  Canonicalisation is lexical; the
    system calls walk the path as it is written, through directories
    that exist; a path with an embedded NUL byte is rejected by every
    call, as the interpreter does before it reaches the system. *)

Module MemFS.

Inductive node : Set :=
  | File (writable : bool)
  | Dir.

Definition state : Type := list (list string * node).

Fixpoint parts_eqb (a b : list string) : bool :=
  match a, b with
  | [], [] => true
  | x :: a', y :: b' => (x =? y) && parts_eqb a' b'
  | _, _ => false
  end.

Fixpoint lookup (k : list string) (s : state) : option node :=
  match s with
  | [] => None
  | (k', n) :: r => if parts_eqb k k' then Some n else lookup k r
  end.

Fixpoint remove (k : list string) (s : state) : state :=
  match s with
  | [] => []
  | (k', n) :: r =>
      if parts_eqb k k' then remove k r else (k', n) :: remove k r
  end.

Definition mem_resolve (_ : state) (p : Path) : result Path :=
  if existsb Str.has_nul (parts p) then Raise ValueError
  else Ok (mkPath (if root p =? "" then "/" else root p)
                  (Pathlib.collapse (parts p))).

Definition key_of (path : string) : list string :=
  Pathlib.collapse (parts (Pathlib.parse path)).

(** The walk to the last segment: every name before it is a directory
    of the table; [cur] is the directory reached so far. *)
Fixpoint walk_dirs (s : state) (cur segs : list string) : result unit :=
  match segs with
  | [] => Ok tt
  | x :: rest =>
      if x =? ".." then walk_dirs s (removelast cur) rest
      else match rest with
           | [] => Ok tt
           | _ :: _ =>
               match lookup (cur ++ [x]) s with
               | Some Dir => walk_dirs s (cur ++ [x]) rest
               | Some (File _) => Raise (OSError ENOTDIR)
               | None => Raise (OSError ENOENT)
               end
           end
  end.

Definition mem_stat (s : state) (path : string) : result unit :=
  if Str.has_nul path then Raise ValueError
  else
    _ <- walk_dirs s [] (parts (Pathlib.parse path)) ;;
    match key_of path with
    | [] => Ok tt
    | k => match lookup k s with
           | Some _ => Ok tt
           | None => Raise (OSError ENOENT)
           end
    end.

Definition mem_unlink (s : state) (path : string) : result state :=
  if Str.has_nul path then Raise ValueError
  else
    _ <- walk_dirs s [] (parts (Pathlib.parse path)) ;;
    match key_of path with
    | [] => Raise (OSError EISDIR)
    | k => match lookup k s with
           | Some (File true) => Ok (remove k s)
           | Some (File false) => Raise (OSError EACCES)
           | Some Dir => Raise (OSError EISDIR)
           | None => Raise (OSError ENOENT)
           end
    end.

Definition platform : Platform := {|
  fs := state;
  resolve := mem_resolve;
  os_stat := mem_stat;
  os_unlink := mem_unlink;
  set_iter := nodup string_dec;
  bracketed_netloc_ok := fun _ => true;
  nfkc_gains_delimiter := fun _ => false;
  BASE_DIR := mkPath "/" ["srv"; "api"]
|}.

(** [/srv/api/data/uploads] holding [a.jpg], [b.png] and a read-only
    [locked.jpg]. *)
Definition sample : state :=
  [ (["srv"], Dir);
    (["srv"; "api"], Dir);
    (["srv"; "api"; "data"], Dir);
    (["srv"; "api"; "data"; "secret.txt"], File true);
    (["srv"; "api"; "data"; "uploads"], Dir);
    (["srv"; "api"; "data"; "uploads"; "a.jpg"], File true);
    (["srv"; "api"; "data"; "uploads"; "b.png"], File true);
    (["srv"; "api"; "data"; "uploads"; "locked.jpg"], File false) ].

(** [sample] once [a.jpg] and [b.png] are deleted. *)
Definition cleaned : state :=
  [ (["srv"], Dir);
    (["srv"; "api"], Dir);
    (["srv"; "api"; "data"], Dir);
    (["srv"; "api"; "data"; "secret.txt"], File true);
    (["srv"; "api"; "data"; "uploads"], Dir);
    (["srv"; "api"; "data"; "uploads"; "locked.jpg"], File false) ].

(** The file name [a], NUL, [b]. *)
Definition nul_name : string := String "a" (String Ascii.zero "b").

Definition uploads_file (name : string) : Path :=
  mkPath "/" ["srv"; "api"; "data"; "uploads"; name].

Definition resolve_url : state -> PyVal -> result (option Path) :=
  local_upload_path_from_url (P := platform).

Definition delete
  : state -> list PyVal -> result (list string * list string * state) :=
  delete_local_uploads (P := platform).

End MemFS.

(* ------------------------------------------------------------------ *)
(** ** A platform with symbolic links

    The table also holds links, each with the target it was made with.
    [joinrealpath] follows [os.path._joinrealpath] with [strict=False]:
    a link is replaced by what its target resolves to, [..] drops the
    last name reached, a name that is missing is kept as it is written,
    and a link met again while it is being resolved ends the
    resolution, the rest of the path left as it is.  [walk] is the
    lookup the kernel does for [stat]: every name must exist, a name
    that is followed by another must lead to a directory, and at most
    [max_links] links are followed.  [lnk_unlink] walks to the parent
    directory and removes the entry named last, a link included,
    without following it. *)

Module LinkFS.

Inductive node : Set :=
  | File (writable : bool)
  | Dir
  | Link (target : string).

Definition state : Type := list (list string * node).

Fixpoint lookup (k : list string) (s : state) : option node :=
  match s with
  | [] => None
  | (k', n) :: r => if MemFS.parts_eqb k k' then Some n else lookup k r
  end.

Fixpoint remove (k : list string) (s : state) : state :=
  match s with
  | [] => []
  | (k', n) :: r =>
      if MemFS.parts_eqb k k' then remove k r else (k', n) :: remove k r
  end.

Definition max_links : nat := 40.

(** The directory a link's target is read from: the link's own, or the
    root when the target is absolute. *)
Definition origin (cur : list string) (target : string) : list string :=
  if root (Pathlib.parse target) =? "" then cur else [].

(** [stack] holds the links that are being resolved, [depth] bounds
    their number; the boolean is [False] when a loop was met. *)
Fixpoint joinrealpath (depth : nat) (s : state) (stack : list (list string))
         (cur todo : list string) {struct depth} : list string * bool :=
  (fix go (cur todo : list string) {struct todo} : list string * bool :=
     match todo with
     | [] => (cur, true)
     | x :: rest =>
         if x =? ".." then go (removelast cur) rest
         else
           match lookup (cur ++ [x]) s with
           | Some (Link t) =>
               if existsb (MemFS.parts_eqb (cur ++ [x])) stack
               then (cur ++ x :: rest, false)
               else
                 match depth with
                 | O => (cur ++ x :: rest, false)
                 | S depth' =>
                     let (r, ok) :=
                       joinrealpath depth' s ((cur ++ [x]) :: stack)
                                    (origin cur t) (parts (Pathlib.parse t)) in
                     if ok then go r rest else (r ++ rest, false)
                 end
           | _ => go (cur ++ [x]) rest
           end
     end) cur todo.

Fixpoint walk (links : nat) (s : state) (cur todo : list string)
         {struct links} : result (list string) :=
  (fix go (cur todo : list string) {struct todo} : result (list string) :=
     match todo with
     | [] => Ok cur
     | x :: rest =>
         if x =? ".." then go (removelast cur) rest
         else
           match lookup (cur ++ [x]) s with
           | None => Raise (OSError ENOENT)
           | Some Dir => go (cur ++ [x]) rest
           | Some (File _) =>
               match rest with
               | [] => Ok (cur ++ [x])
               | _ :: _ => Raise (OSError ENOTDIR)
               end
           | Some (Link t) =>
               match links with
               | O => Raise (OSError ELOOP)
               | S links' =>
                   walk links' s (origin cur t)
                        (parts (Pathlib.parse t) ++ rest)
               end
           end
     end) cur todo.

Definition is_dir (s : state) (k : list string) : bool :=
  match k with
  | [] => true
  | _ :: _ => match lookup k s with Some Dir => true | _ => false end
  end.

(** [Path.resolve()]: [os.path.realpath], whose result [abspath]
    normalises, then a [stat] of the result that turns a loop into a
    [RuntimeError].  No stack of links is deeper than the table is
    long. *)
Definition lnk_resolve (s : state) (p : Path) : result Path :=
  if existsb Str.has_nul (parts p) then Raise ValueError
  else
    let k :=
      Pathlib.collapse
        (fst (joinrealpath (S (List.length s)) s [] [] (parts p))) in
    match walk max_links s [] k with
    | Raise (OSError ELOOP) => Raise RuntimeError
    | _ => Ok (mkPath (if root p =? "" then "/" else root p) k)
    end.

Definition lnk_stat (s : state) (path : string) : result unit :=
  if Str.has_nul path then Raise ValueError
  else
    _ <- walk max_links s [] (parts (Pathlib.parse path)) ;;
    Ok tt.

Definition lnk_unlink (s : state) (path : string) : result state :=
  if Str.has_nul path then Raise ValueError
  else
    match rev (parts (Pathlib.parse path)) with
    | [] => Raise (OSError EISDIR)
    | name :: before =>
        dir <- walk max_links s [] (rev before) ;;
        if negb (is_dir s dir) then Raise (OSError ENOTDIR)
        else if name =? ".." then Raise (OSError EISDIR)
        else
          match lookup (dir ++ [name]) s with
          | None => Raise (OSError ENOENT)
          | Some Dir => Raise (OSError EISDIR)
          | Some (File false) => Raise (OSError EACCES)
          | Some (File true) | Some (Link _) => Ok (remove (dir ++ [name]) s)
          end
    end.

Definition platform : Platform := {|
  fs := state;
  resolve := lnk_resolve;
  os_stat := lnk_stat;
  os_unlink := lnk_unlink;
  set_iter := nodup string_dec;
  bracketed_netloc_ok := fun _ => true;
  nfkc_gains_delimiter := fun _ => false;
  BASE_DIR := mkPath "/" ["srv"; "api"]
|}.

(** The uploads directory holds [a.jpg] and a link [d] to the directory
    [/outside]; [/outside] holds a link [x] to that [a.jpg]. *)
Definition escape : state :=
  [ (["srv"], Dir);
    (["srv"; "api"], Dir);
    (["srv"; "api"; "data"], Dir);
    (["srv"; "api"; "data"; "uploads"], Dir);
    (["srv"; "api"; "data"; "uploads"; "a.jpg"], File true);
    (["srv"; "api"; "data"; "uploads"; "d"], Link "/outside");
    (["outside"], Dir);
    (["outside"; "x"], Link "/srv/api/data/uploads/a.jpg") ].


Definition resolve_url : state -> PyVal -> result (option Path) :=
  local_upload_path_from_url (P := platform).

Definition delete
  : state -> list PyVal -> result (list string * list string * state) :=
  delete_local_uploads (P := platform).

End LinkFS.

(* ------------------------------------------------------------------ *)
(** ** A platform that loses every race

    The table of [MemFS] seen by the deleter while another actor
    removes each file between the existence test and the unlink:
    [os.stat] finds what the table holds, [os.unlink] finds nothing. *)

Module RaceFS.

Definition platform : Platform := {|
  fs := MemFS.state;
  resolve := MemFS.mem_resolve;
  os_stat := MemFS.mem_stat;
  os_unlink := fun _ _ => Raise (OSError ENOENT);
  set_iter := nodup string_dec;
  bracketed_netloc_ok := fun _ => true;
  nfkc_gains_delimiter := fun _ => false;
  BASE_DIR := mkPath "/" ["srv"; "api"]
|}.

End RaceFS.

(* ------------------------------------------------------------------ *)
(** ** Notions used in the statements *)

(** [c] is [r] or a descendant of [r]. *)
Definition within (c r : Path) : Prop :=
  root c = root r /\ exists rel, parts c = parts r ++ rel.

Definition is_slash (c : ascii) : bool := (c =? "/")%char || (c =? "\")%char.

(** The text after [data:] in a [data:] URI is empty or begins with a
    character other than a slash, a backslash, a tab and a line break. *)
Definition opaque_body (body : string) : bool :=
  match body with
  | EmptyString => true
  | String c _ => negb (is_slash c) && negb (Urllib.is_unsafe c)
  end.

Section Notions.
Context {P : Platform}.

(** Both canonical forms exist and that of [p] is within that of
    [UPLOADS_DIR]. *)
Definition contained (s : fs) (p : Path) : Prop :=
  exists cp cr,
    resolve s p = Ok cp /\ resolve s UPLOADS_DIR = Ok cr /\ within cp cr.

(** [s'] is reached from [s] by unlinking contained paths only. *)
Inductive deletes_within : fs -> fs -> Prop :=
  | dw_done : forall s, deletes_within s s
  | dw_unlink : forall s p s1 s2,
      contained s p ->
      Path_unlink true s p = Ok s1 ->
      deletes_within s1 s2 ->
      deletes_within s s2.

(** [s'] is reached from [s] by successful deletions of the loop. *)
Inductive unlinks : fs -> fs -> Prop :=
  | unlinks_refl : forall s, unlinks s s
  | unlinks_step : forall s q s1 s2,
      Path_exists s q = Ok true ->
      Path_unlink true s q = Ok s1 ->
      unlinks s1 s2 ->
      unlinks s s2.

(** The loop would record [p] as removed in state [s]. *)
Definition removable (s : fs) (p : Path) : Prop :=
  Path_exists s p = Ok true /\ exists s', Path_unlink true s p = Ok s'.

(** [return p if _is_subpath(p, UPLOADS_DIR) else None] for the
    remainder [rel] of an [/uploads/] path. *)
Definition guarded (s : fs) (rel : string) : option Path :=
  let p := UPLOADS_DIR // Str.lstrip rel "/\" in
  if _is_subpath s p UPLOADS_DIR then Some p else None.

(** One iteration of the loop of [delete_local_uploads], by cases. *)
Inductive step
  : fs * list string * list string -> string ->
    fs * list string * list string -> Prop :=
  | step_skip : forall s rm c u,
      local_upload_path_from_url s (PyStr u) = Ok None ->
      step (s, rm, c) u (s, rm, c)
  | step_keep : forall s rm c u p,
      local_upload_path_from_url s (PyStr u) = Ok (Some p) ->
      ~ removable s p ->
      step (s, rm, c) u (s, rm, c ++ [Pathlib.str p])
  | step_remove : forall s rm c u p s',
      local_upload_path_from_url s (PyStr u) = Ok (Some p) ->
      Path_exists s p = Ok true ->
      Path_unlink true s p = Ok s' ->
      step (s, rm, c) u (s', rm ++ [Pathlib.str p], c ++ [Pathlib.str p]).


(** Canonicalising [p] in state [s] succeeds and follows no symbolic
    link: the result is [p] with its [..] segments resolved against the
    names before them. *)
Definition lexical_at (s : fs) (p : Path) : Prop :=
  resolve s p = Ok (mkPath (root p) (Pathlib.collapse (parts p))).

(** The strings of the paths the urls [us] resolve to in state [s]. *)
Definition candidates_at (s : fs) (us : list string) : list string :=
  flat_map
    (fun u =>
       match local_upload_path_from_url s (PyStr u) with
       | Ok (Some p) => [Pathlib.str p]
       | _ => []
       end)
    us.

End Notions.

(** Deleting a file on a sequential filesystem: the file is gone, and
    nothing else becomes deletable. *)
Record deletion_laws (P : Platform) : Prop := {
  removed_is_gone :
    forall (s s' : fs) (p : Path),
      Path_exists s p = Ok true -> Path_unlink true s p = Ok s' ->
      ~ removable s' p;
  removable_antitone :
    forall (s s' : fs) (q p : Path),
      Path_exists s q = Ok true -> Path_unlink true s q = Ok s' ->
      removable s' p -> removable s p
}.

(** Deleting a file does not change what paths canonicalise to. *)
Definition canon_stable (P : Platform) : Prop :=
  forall (s s' : fs) (q p : Path),
    Path_exists s q = Ok true -> Path_unlink true s q = Ok s' ->
    resolve s' p = resolve s p.


(** [BASE_DIR] is the result of a [resolve()]: absolute and without
    [..]. *)
Definition normal_base (P : Platform) : Prop :=
  root BASE_DIR = "/" /\
  forallb (fun x => negb (x =? "..")) (parts BASE_DIR) = true.

(* ------------------------------------------------------------------ *)
(** ** Notions used in the further properties *)

(** [xs] is [ys] with some entries left out, the order kept. *)
Inductive subseq : list string -> list string -> Prop :=
  | subseq_nil : subseq [] []
  | subseq_skip : forall xs y ys, subseq xs ys -> subseq xs (y :: ys)
  | subseq_keep : forall x xs ys, subseq xs ys -> subseq (x :: xs) (x :: ys).

(** [p.unlink(missing_ok=True)] on the paths of [ps], one after the
    other; [None] when one of them raises. *)
Fixpoint unlink_each {P : Platform} (s : fs) (ps : list Path) : option fs :=
  match ps with
  | [] => Some s
  | p :: ps' =>
      match Path_unlink true s p with
      | Ok s' => unlink_each s' ps'
      | Raise _ => None
      end
  end.

(** A character of a host that [urlsplit] keeps in the netloc: no
    delimiter, no bracket, no tab or line break. *)
Definition host_char (c : ascii) : bool :=
  negb (Urllib.is_netloc_delim c) && negb (c =? "[")%char
  && negb (c =? "]")%char && negb (Urllib.is_unsafe c).

(** A character of a URL path that [urlparse] keeps in the path: it
    starts no query, fragment or parameter and is no tab or line break. *)
Definition path_char (c : ascii) : bool :=
  negb (c =? "?")%char && negb (c =? "#")%char && negb (c =? ";")%char
  && negb (Urllib.is_unsafe c).

(** Nothing, a query ([?...]) or a fragment ([#...]). *)
Definition query_or_fragment (x : string) : bool :=
  match x with
  | EmptyString => true
  | String c _ => (c =? "?")%char || (c =? "#")%char
  end.

(** A segment as [pathlib] keeps it: not empty, not [.], no slash. *)
Definition clean_segment (x : string) : Prop :=
  x <> "" /\ x <> "." /\ Str.contains "/" x = false.

(* ------------------------------------------------------------------ *)
(** ** Strings *)

Arguments Str.strip : simpl never.
Arguments Urllib.urlparse : simpl never.

Lemma or_empty (x : string) : (if x =? "" then "" else x) = x.
Proof.
  destruct (x =? "") eqn:E; [ apply String.eqb_eq in E; auto | reflexivity ].
Qed.

Lemma strip_empty : Str.strip "" = "".
Proof. reflexivity. Qed.

Lemma startswith_app (pre rest : string) :
  Str.startswith (pre ++ rest) pre = true.
Proof.
  unfold Str.startswith.
  induction pre as [|c pre IH]; simpl.
  - destruct rest; reflexivity.
  - destruct (ascii_dec c c) as [_|n]; [ exact IH | contradiction ].
Qed.

Lemma drop_app (pre rest : string) :
  Str.drop (String.length pre) (pre ++ rest) = rest.
Proof. induction pre; simpl; auto. Qed.

Lemma removeprefix_app (pre rest : string) :
  Str.removeprefix (pre ++ rest) pre = rest.
Proof.
  unfold Str.removeprefix. rewrite startswith_app. apply drop_app.
Qed.

Lemma startswith_inv (s pre : string) :
  Str.startswith s pre = true -> s = (pre ++ Str.drop (String.length pre) s)%string.
Proof.
  unfold Str.startswith. revert s.
  induction pre as [|c pre IH]; intros s H.
  - reflexivity.
  - destruct s as [|d s]; simpl in H; [ discriminate H | ].
    destruct (ascii_dec c d) as [->|]; [ | discriminate H ].
    simpl. f_equal. apply IH, H.
Qed.

(** A string made of slashes and backslashes is stripped to nothing. *)
Lemma mem_slash (c : ascii) : Str.mem c "/\" = is_slash c.
Proof.
  unfold is_slash. cbn [Str.mem].
  rewrite (Ascii.eqb_sym "/"%char c), (Ascii.eqb_sym "\"%char c).
  now rewrite orb_false_r.
Qed.

Lemma lstrip_slashes (t : string) :
  Str.forallb is_slash t = true -> Str.lstrip t "/\" = "".
Proof.
  unfold Str.lstrip.
  induction t as [|c t IH]; intros H; [ reflexivity | ].
  cbn [Str.forallb] in H. apply andb_prop in H as [Hc Ht].
  cbn [Str.lstrip_by]. rewrite mem_slash, Hc. exact (IH Ht).
Qed.

(** Two prefixes of one string that have the same length are equal. *)
Lemma lstrip_no_root (rest : string) :
  Pathlib.splitroot (Str.lstrip rest "/\") = ("", Str.lstrip rest "/\").
Proof.
  unfold Str.lstrip. induction rest as [|c r IH]; [ reflexivity | ].
  cbn [Str.lstrip_by]. rewrite mem_slash.
  destruct (is_slash c) eqn:E; [ exact IH | ].
  unfold is_slash in E. apply orb_false_elim in E as [E _].
  unfold Pathlib.splitroot. now rewrite E.
Qed.

Lemma split_once_cons (c a : ascii) (x : string) :
  (a =? c)%char = false ->
  Urllib.split_once c (String a x)
  = (String a (fst (Urllib.split_once c x)), snd (Urllib.split_once c x)).
Proof.
  intros H. unfold Urllib.split_once. cbn [Str.find]. rewrite H.
  destruct (Str.find c x) as [i|]; reflexivity.
Qed.

Lemma split_once_hit (c : ascii) (x : string) :
  Urllib.split_once c (String c x) = ("", x).
Proof.
  unfold Urllib.split_once. cbn [Str.find]. now rewrite Ascii.eqb_refl.
Qed.

Lemma split_once_head (d c : ascii) (r : string) :
  fst (Urllib.split_once d (String c r)) = ""
  \/ exists r', fst (Urllib.split_once d (String c r)) = String c r'.
Proof.
  destruct (c =? d)%char eqn:E.
  - apply Ascii.eqb_eq in E. subst d. rewrite split_once_hit. now left.
  - rewrite split_once_cons by exact E. right. cbn [fst].
    eexists. reflexivity.
Qed.

(** A path that begins with neither a slash nor a backslash is not
    under [/uploads/]. *)
Lemma not_uploads (c : ascii) (r : string) :
  is_slash c = false ->
  Str.startswith (Str.replace (String c r) "\" "/") "/uploads/" = false.
Proof.
  intros H. unfold is_slash in H. apply orb_false_elim in H as [H1 H2].
  unfold Str.replace. cbn [Str.map]. rewrite H2.
  unfold Str.startswith. cbn [String.prefix].
  destruct (ascii_dec "/" c) as [<-|]; [ discriminate H1 | reflexivity ].
Qed.

(** The path [urlparse] finds in a [data:] URI begins as the text
    after [data:] does. *)
Lemma data_uri_path (P : Platform) (body : string) (uu : ParseResult) :
  opaque_body body = true ->
  Urllib.urlparse ("data:" ++ body) = Ok uu ->
  Str.startswith (Str.replace (path uu) "\" "/") "/uploads/" = false.
Proof.
  intros Hb. unfold Urllib.urlparse, Urllib.urlsplit. cbv zeta.
  change (Str.lstrip_by Urllib.is_c0_or_space ("data:" ++ body))
    with ("data:" ++ body)%string.
  change (Str.remove_by Urllib.is_unsafe ("data:" ++ body))
    with ("data:" ++ Str.remove_by Urllib.is_unsafe body)%string.
  change (Urllib.split_scheme ("data:" ++ Str.remove_by Urllib.is_unsafe body))
    with ("data", Str.remove_by Urllib.is_unsafe body).
  cbv iota beta.
  destruct body as [|c r].
  { cbn. intros [= <-]. reflexivity. }
  cbn [opaque_body] in Hb. apply andb_prop in Hb as [Hs Hu].
  apply negb_true_iff in Hs, Hu.
  cbn [Str.remove_by]. rewrite Hu.
  set (r' := Str.remove_by Urllib.is_unsafe r).
  replace (Str.startswith (String c r') "//") with false.
  2: { unfold Str.startswith. cbn [String.prefix].
       destruct (ascii_dec "/" c) as [<-|]; [ discriminate Hs | reflexivity ]. }
  cbn [bind].
  set (A := Urllib.split_once "#" (String c r')).
  assert (HA : fst A = "" \/ exists t, fst A = String c t)
    by apply split_once_head.
  rewrite (surjective_pairing A). cbv iota beta.
  set (B := Urllib.split_once "?" (fst A)).
  assert (HB : fst B = "" \/ exists t, fst B = String c t).
  { subst B. destruct HA as [->|[t ->]]; [ now left | apply split_once_head ]. }
  rewrite (surjective_pairing B). cbv iota beta.
  change (Urllib._checknetloc "") with (Ok (A := unit) tt). cbn [bind].
  change (existsb (String.eqb "data") Urllib.uses_params) with false.
  cbn [andb]. intros [= <-]. cbn [path].
  destruct HB as [->|[t ->]]; [ reflexivity | now apply not_uploads ].
Qed.

Lemma startswith_same_length (s a b : string) :
  Str.startswith s a = true -> Str.startswith s b = true ->
  String.length a = String.length b -> a = b.
Proof.
  unfold Str.startswith. revert s b.
  induction a as [|c a IH]; intros s b Ha Hb Hl; destruct b as [|d b];
    try discriminate Hl; [ reflexivity | ].
  destruct s as [|e s]; simpl in Ha, Hb, Hl; [ discriminate Ha | ].
  destruct (ascii_dec c e) as [->|]; [ | discriminate Ha ].
  destruct (ascii_dec d e) as [->|]; [ | discriminate Hb ].
  f_equal. apply (IH s); auto.
Qed.

(* ------------------------------------------------------------------ *)
(** ** Paths *)

Lemma is_prefix_spec (xs ys : list string) :
  Pathlib.is_prefix xs ys = true <-> exists rel, ys = xs ++ rel.
Proof.
  revert ys; induction xs as [|x xs IH]; intros ys; simpl.
  - split; eauto.
  - destruct ys as [|y ys].
    + split; [ discriminate | intros [rel H]; discriminate H ].
    + rewrite andb_true_iff, String.eqb_eq, IH. split.
      * intros [-> [rel ->]]. eauto.
      * intros [rel H]. injection H as -> ->. eauto.
Qed.

Lemma is_prefix_app (xs rel : list string) :
  Pathlib.is_prefix xs (xs ++ rel) = true.
Proof. apply is_prefix_spec. eauto. Qed.

(** [relative_to] succeeds exactly on a path and its descendants. *)
Lemma relative_to_within (c r : Path) :
  (exists x, Pathlib.relative_to c r = Ok x) <-> within c r.
Proof.
  unfold Pathlib.relative_to, within.
  destruct (root c =? root r) eqn:Er; simpl.
  - apply String.eqb_eq in Er.
    destruct (Pathlib.is_prefix (parts r) (parts c)) eqn:Ep.
    + split; [ intros _; split; auto; apply is_prefix_spec; auto | eauto ].
    + split; [ intros [x H]; discriminate H | ].
      intros [_ H]. apply is_prefix_spec in H. congruence.
  - apply String.eqb_neq in Er.
    split; [ intros [x H]; discriminate H | intros [H _]; contradiction ].
Qed.

Lemma within_refl (p : Path) : within p p.
Proof. split; [ reflexivity | exists []; now rewrite app_nil_r ]. Qed.

(* ------------------------------------------------------------------ *)
(** ** The containment guard and the resolver *)

Section Resolver.
Context {P : Platform}.
Variable s : fs.

Lemma is_subpath_spec (p parent : Path) :
  _is_subpath s p parent = true <->
  exists cp cr,
    resolve s p = Ok cp /\ resolve s parent = Ok cr /\ within cp cr.
Proof.
  unfold _is_subpath.
  destruct (resolve s p) as [cp|e] eqn:Ep; simpl.
  2: { split; [ discriminate | intros (cp & cr & H & _); discriminate H ]. }
  destruct (resolve s parent) as [cr|e] eqn:Er; simpl.
  2: { split; [ discriminate | intros (? & cr & _ & H & _); discriminate H ]. }
  destruct (Pathlib.relative_to cp cr) eqn:E.
  - split; intros _; auto. exists cp, cr; repeat split; auto;
      apply relative_to_within; eauto.
  - split; [ discriminate | ].
    intros (cp' & cr' & H1 & H2 & H3).
    injection H1 as <-; injection H2 as <-.
    apply relative_to_within in H3 as [x Hx]. congruence.
Qed.

Lemma is_subpath_contained (p : Path) :
  _is_subpath s p UPLOADS_DIR = true <-> contained s p.
Proof. apply is_subpath_spec. Qed.

Lemma guarded_some (rel : string) (p : Path) :
  guarded s rel = Some p ->
  p = UPLOADS_DIR // Str.lstrip rel "/\" /\ _is_subpath s p UPLOADS_DIR = true.
Proof.
  unfold guarded.
  destruct (_is_subpath s (UPLOADS_DIR // Str.lstrip rel "/\") UPLOADS_DIR)
    eqn:G; intros H; [ injection H as <-; auto | discriminate H ].
Qed.

(** A value that is not a [str] is rejected by the first test. *)
Lemma resolver_not_str (v : PyVal) :
  isinstance_str v = false -> local_upload_path_from_url s v = Ok None.
Proof.
  intros H. unfold local_upload_path_from_url.
  now rewrite H, orb_true_r.
Qed.

(** The relative branch (lines 90-96). *)
Lemma resolver_relative (url : string) :
  Str.startswith (Str.strip url) "/uploads/" = true ->
  local_upload_path_from_url s (PyStr url) =
    Ok (guarded s (Str.removeprefix (Str.strip url) "/uploads/")).
Proof.
  intros H. destruct url as [|c r].
  { rewrite strip_empty in H. discriminate H. }
  unfold local_upload_path_from_url.
  cbn [truthy isinstance_str negb orb String.eqb]. rewrite H.
  unfold _strip_slashes, Pathlib.truediv, guarded. cbn [bind].
  reflexivity.
Qed.

(** The URL branch (lines 98-115). *)
Lemma resolver_absolute (url : string) :
  Str.startswith (Str.strip url) "/uploads/" = false ->
  local_upload_path_from_url s (PyStr url) =
    Ok (match Urllib.urlparse (Str.strip url) with
        | Ok uu =>
            let path := Str.replace (path uu) "\" "/" in
            if Str.startswith path "/uploads/"
            then guarded s (Str.removeprefix path "/uploads/")
            else None
        | Raise _ => None
        end).
Proof.
  intros H. destruct url as [|c r]; [ reflexivity | ].
  unfold local_upload_path_from_url.
  cbn [truthy isinstance_str negb orb String.eqb]. rewrite H.
  unfold try_except.
  destruct (Urllib.urlparse (Str.strip (String c r))) as [uu|e];
    cbn [bind]; [ | reflexivity ].
  rewrite or_empty. cbv zeta.
  destruct (Str.startswith (Str.replace (path uu) "\" "/") "/uploads/");
    [ | reflexivity ].
  unfold _strip_slashes, Pathlib.truediv, guarded. cbn [bind].
  reflexivity.
Qed.

Lemma resolver_total (v : PyVal) :
  exists r, local_upload_path_from_url s v = Ok r.
Proof.
  destruct (isinstance_str v) eqn:E.
  - destruct v as [| | |u| |]; try discriminate E.
    destruct (Str.startswith (Str.strip u) "/uploads/") eqn:H;
      [ rewrite resolver_relative | rewrite resolver_absolute ]; eauto.
  - rewrite resolver_not_str; eauto.
Qed.

(** Whatever is returned went through the guard. *)
Lemma resolver_guard (v : PyVal) (p : Path) :
  local_upload_path_from_url s v = Ok (Some p) ->
  _is_subpath s p UPLOADS_DIR = true.
Proof.
  destruct (isinstance_str v) eqn:E;
    [ | rewrite resolver_not_str by auto; discriminate ].
  destruct v as [| | |u| |]; try discriminate E.
  destruct (Str.startswith (Str.strip u) "/uploads/") eqn:H;
    [ rewrite resolver_relative | rewrite resolver_absolute ]; auto.
  - intros [= G]. now apply guarded_some in G.
  - destruct (Urllib.urlparse (Str.strip u)) as [uu|e]; [ | discriminate ].
    cbv zeta.
    destruct (Str.startswith (Str.replace (path uu) "\" "/") "/uploads/");
      [ | discriminate ].
    intros [= G]. now apply guarded_some in G.
Qed.

End Resolver.

(* ------------------------------------------------------------------ *)
(** ** The loop of the batch deleter *)

Section Loop.
Context {P : Platform}.

(** An iteration never raises, and is one of the three [step]s. *)
Lemma delete_one_step (st : fs * list string * list string) (u : string) :
  exists st', delete_one st u = Ok st' /\ step st u st'.
Proof.
  destruct st as [[s rm] c]. unfold delete_one.
  destruct (resolver_total s (PyStr u)) as [[p|] Hr]; rewrite Hr; cbn [bind].
  2: { eexists; split; [ reflexivity | now constructor ]. }
  unfold try_except.
  destruct (Path_exists s p) as [[|]|e] eqn:He; cbn [bind].
  - destruct (Path_unlink true s p) as [s'|e] eqn:Hu; cbn [bind].
    + eexists; split; [ reflexivity | now apply step_remove ].
    + eexists; split; [ reflexivity | ].
      apply step_keep; auto. intros [_ [s' H]]. congruence.
  - eexists; split; [ reflexivity | ].
    apply step_keep; auto. intros [H _]. congruence.
  - eexists; split; [ reflexivity | ].
    apply step_keep; auto. intros [H _]. congruence.
Qed.

(** Induction over a run of the loop, one [step] at a time. *)
Lemma delete_loop_ind
      (I : fs * list string * list string -> Prop)
      (us : list string) :
  (forall st u st', In u us -> I st -> step st u st' -> I st') ->
  forall st st', I st -> delete_loop us st = Ok st' -> I st'.
Proof.
  induction us as [|u us IH]; intros Hstep st st' Hst Hrun; simpl in Hrun.
  - now injection Hrun as <-.
  - destruct (delete_one_step st u) as (st1 & H1 & S1).
    rewrite H1 in Hrun; cbn [bind] in Hrun.
    apply (IH (fun st u st' Hin => Hstep st u st' (or_intror Hin)) st1 st');
      auto.
    apply (Hstep st u st1); simpl; auto.
Qed.

Lemma delete_loop_total (us : list string)
      (st : fs * list string * list string) :
  exists st', delete_loop us st = Ok st'.
Proof.
  revert st; induction us as [|u us IH]; intros st; simpl; eauto.
  destruct (delete_one_step st u) as (st1 & H1 & _).
  rewrite H1; cbn [bind]. apply IH.
Qed.

Lemma delete_local_uploads_run (s : fs) (urls : list PyVal) :
  exists s' removed candidates,
    delete_loop (set_iter (string_urls urls)) (s, [], [])
      = Ok (s', removed, candidates)
    /\ delete_local_uploads s urls = Ok (removed, candidates, s').
Proof.
  destruct (delete_loop_total (set_iter (string_urls urls)) (s, [], []))
    as ([[s' rm] c] & H).
  exists s', rm, c. split; auto.
  unfold delete_local_uploads. now rewrite H.
Qed.

Lemma delete_local_uploads_inv (s s' : fs) (urls : list PyVal)
      (removed candidates : list string) :
  delete_local_uploads s urls = Ok (removed, candidates, s') ->
  delete_loop (set_iter (string_urls urls)) (s, [], [])
    = Ok (s', removed, candidates).
Proof.
  destruct (delete_local_uploads_run s urls) as (s1 & rm & c & H & H').
  rewrite H'. now intros [= <- <- <-].
Qed.

(** The members of [string_urls]: the non-blank strings of the input. *)
Lemma in_string_urls (urls : list PyVal) (u : string) :
  In u (string_urls urls) <-> In (PyStr u) urls /\ Str.strip u <> "".
Proof.
  unfold string_urls. rewrite in_flat_map. split.
  - intros (x & Hx & Hu). destruct x as [| | |x'| |]; try contradiction.
    cbn [isinstance_str truthy andb] in Hu.
    destruct (Str.strip x' =? "") eqn:E; cbn [negb] in Hu;
      [ contradiction | ].
    destruct Hu as [<-|[]]. split; auto. now apply String.eqb_neq.
  - intros [Hin Hne]. exists (PyStr u). split; auto.
    cbn [isinstance_str truthy andb].
    apply String.eqb_neq in Hne. rewrite Hne. now left.
Qed.

End Loop.

(* ------------------------------------------------------------------ *)
(** ** Facts shared by the statements below *)

Section Shared.
Context {P : Platform}.

Lemma uploads_dir_eq :
  UPLOADS_DIR = mkPath (root BASE_DIR) (parts BASE_DIR ++ ["data"; "uploads"]).
Proof.
  unfold UPLOADS_DIR, DATA_DIR, Pathlib.joinpath. cbn.
  now rewrite <- app_assoc.
Qed.

Lemma joinpath_empty (p : Path) : p // "" = p.
Proof.
  unfold Pathlib.joinpath. cbn. rewrite app_nil_r. now destruct p.
Qed.

(** An input recognised by neither branch resolves to [None]. *)
Lemma resolver_unrecognised (s : fs) (url : string) :
  Str.startswith (Str.strip url) "/uploads/" = false ->
  (forall uu,
      Urllib.urlparse (Str.strip url) = Ok uu ->
      Str.startswith (Str.replace (path uu) "\" "/") "/uploads/" = false) ->
  local_upload_path_from_url s (PyStr url) = Ok None.
Proof.
  intros H Hp. rewrite resolver_absolute by exact H.
  destruct (Urllib.urlparse (Str.strip url)) as [uu|e]; [ | reflexivity ].
  cbv zeta. now rewrite (Hp uu eq_refl).
Qed.

Lemma loop_deletes_within (us : list string) (s s' : fs)
      (rm c rm' c' : list string) :
  delete_loop us (s, rm, c) = Ok (s', rm', c') -> deletes_within s s'.
Proof.
  revert s rm c. induction us as [|u us IH]; intros s rm c H;
    cbn [delete_loop] in H.
  - injection H as <- _ _. constructor.
  - destruct (delete_one_step (s, rm, c) u) as (st1 & H1 & S1).
    rewrite H1 in H; cbn [bind] in H.
    inversion S1; subst; try (eapply IH; eassumption).
    eapply dw_unlink; [ | eassumption | eapply IH; eassumption ].
    now apply is_subpath_contained, resolver_guard with (v := PyStr u).
Qed.

Lemma map_length (f : ascii -> ascii) (x : string) :
  String.length (Str.map f x) = String.length x.
Proof. induction x; simpl; auto. Qed.

End Shared.

(* ------------------------------------------------------------------ *)
(** ** The resolver and the guard: claims C1, C3, C6, C10 *)

(** Claim C1 (as amended).  Whatever [local_upload_path_from_url]
    returns has a canonical form that is equal to, or a descendant of,
    the canonical form of [UPLOADS_DIR].  The guard accepts exactly such
    paths and answers [False] when either canonicalisation raises; an
    input whose joined candidate is not so contained resolves to [None];
    and the batch deleter changes the filesystem only by unlinking paths
    that are contained, in that sense, when they are unlinked. *)
Theorem C1_resolved_paths_stay_in_root (P : Platform) (s : fs) :
  (forall url p,
      local_upload_path_from_url s url = Ok (Some p) -> contained s p)
  /\ (forall p parent,
         _is_subpath s p parent = true <->
         exists cp cr,
           resolve s p = Ok cp /\ resolve s parent = Ok cr /\ within cp cr)
  /\ (forall p parent e,
         resolve s p = Raise e \/ resolve s parent = Raise e ->
         _is_subpath s p parent = false)
  /\ (forall url rest,
         Str.strip url = ("/uploads/" ++ rest)%string ->
         ~ contained s (UPLOADS_DIR // Str.lstrip rest "/\") ->
         local_upload_path_from_url s (PyStr url) = Ok None)
  /\ (forall url uu,
         Str.startswith (Str.strip url) "/uploads/" = false ->
         Urllib.urlparse (Str.strip url) = Ok uu ->
         ~ contained s
             (UPLOADS_DIR //
                Str.lstrip
                  (Str.removeprefix (Str.replace (path uu) "\" "/") "/uploads/")
                  "/\") ->
         local_upload_path_from_url s (PyStr url) = Ok None)
  /\ (forall urls removed candidates s',
         delete_local_uploads s urls = Ok (removed, candidates, s') ->
         deletes_within s s').
Proof.
  refine (conj _ (conj _ (conj _ (conj _ (conj _ _))))).
  - intros url p H.
    now apply is_subpath_contained, resolver_guard with (v := url).
  - intros p parent. apply is_subpath_spec.
  - intros p parent e [H|H]; unfold _is_subpath;
      destruct (resolve s p) as [cp|e']; try discriminate H; cbn [bind]; auto.
    now rewrite H.
  - intros url rest H Hout.
    rewrite resolver_relative by (rewrite H; apply startswith_app).
    rewrite H, removeprefix_app. unfold guarded.
    destruct (_is_subpath s (UPLOADS_DIR // Str.lstrip rest "/\") UPLOADS_DIR)
      eqn:G; [ | reflexivity ].
    now apply is_subpath_contained in G.
  - intros url uu H Hu Hout. rewrite resolver_absolute by exact H. rewrite Hu.
    cbv zeta.
    destruct (Str.startswith (Str.replace (path uu) "\" "/") "/uploads/");
      [ | reflexivity ].
    unfold guarded.
    match goal with
    | |- context [ _is_subpath s ?p UPLOADS_DIR ] =>
        destruct (_is_subpath s p UPLOADS_DIR) eqn:G
    end; [ | reflexivity ].
    now apply is_subpath_contained in G.
  - intros urls removed candidates s' H. apply delete_local_uploads_inv in H.
    eapply loop_deletes_within; eassumption.
Qed.

(** Claim C3 (as amended).  Neither operation lets an exception escape.
    The resolver always returns; it returns [None] on the empty string,
    on a value that is not a string, and on every string that neither
    branch recognises: its trimmed form does not start with [/uploads/]
    and its URL parsing raises or yields a path that is not under
    [/uploads/].  That is so for every [data:] URI in which [data:] is
    followed by nothing or by a character other than a slash, a
    backslash, a tab and a line break, and for the external URL and the
    malformed URL below.  The batch deleter always returns.  When the
    existence test or the unlink of a resolved path raises, the loop
    goes on with the next URL, the path is a candidate and is not
    recorded as removed.  When the file is gone by the time of the
    unlink, [missing_ok] absorbs the error: the loop goes on and the
    path is recorded as removed. *)
Theorem C3_no_exception_escapes (P : Platform) (s : fs) :
  (forall v, exists r, local_upload_path_from_url s v = Ok r)
  /\ local_upload_path_from_url s (PyStr "") = Ok None
  /\ (forall v,
         isinstance_str v = false -> local_upload_path_from_url s v = Ok None)
  /\ (forall url,
         Str.startswith (Str.strip url) "/uploads/" = false ->
         (forall uu,
             Urllib.urlparse (Str.strip url) = Ok uu ->
             Str.startswith (Str.replace (path uu) "\" "/") "/uploads/" = false) ->
         local_upload_path_from_url s (PyStr url) = Ok None)
  /\ (forall url body,
         Str.strip url = ("data:" ++ body)%string ->
         opaque_body body = true ->
         local_upload_path_from_url s (PyStr url) = Ok None)
  /\ local_upload_path_from_url s (PyStr "data:image/png;base64,xx") = Ok None
  /\ local_upload_path_from_url s (PyStr "https://external.com/c.jpg") = Ok None
  /\ local_upload_path_from_url s (PyStr "http://[::1/uploads/a.png") = Ok None
  /\ (forall urls,
         exists removed candidates s',
           delete_local_uploads s urls = Ok (removed, candidates, s'))
  /\ (forall u us removed candidates p e,
         local_upload_path_from_url s (PyStr u) = Ok (Some p) ->
         Path_exists s p = Raise e \/
         (Path_exists s p = Ok true /\ Path_unlink true s p = Raise e) ->
         delete_loop (u :: us) (s, removed, candidates)
           = delete_loop us (s, removed, candidates ++ [Pathlib.str p]))
  /\ (forall u us removed candidates p,
         local_upload_path_from_url s (PyStr u) = Ok (Some p) ->
         Path_exists s p = Ok true ->
         os_unlink s (Pathlib.str p) = Raise (OSError ENOENT) ->
         delete_loop (u :: us) (s, removed, candidates)
           = delete_loop us
               (s, removed ++ [Pathlib.str p], candidates ++ [Pathlib.str p])).
Proof.
  refine (conj _ (conj _ (conj _ (conj _ (conj _ (conj _ (conj _ (conj _
            (conj _ (conj _ _)))))))))).
  - apply resolver_total.
  - reflexivity.
  - apply resolver_not_str.
  - apply resolver_unrecognised.
  - intros url body H Hb. apply resolver_unrecognised.
    + rewrite H. reflexivity.
    + rewrite H. intros uu. now apply data_uri_path.
  - reflexivity.
  - reflexivity.
  - reflexivity.
  - intros urls.
    destruct (delete_local_uploads_run s urls) as (s' & rm & c & _ & H).
    eauto.
  - intros u us rm c p e Hp Hfail. cbn [delete_loop]. unfold delete_one.
    rewrite Hp; cbn [bind]. unfold try_except.
    destruct Hfail as [He|[He Hu]]; rewrite He; cbn [bind]; auto.
    rewrite Hu; cbn [bind]. reflexivity.
  - intros u us rm c p Hp He Hu. cbn [delete_loop]. unfold delete_one.
    rewrite Hp; cbn [bind]. unfold try_except.
    rewrite He; cbn [bind]. unfold Path_unlink. rewrite Hu; cbn [bind].
    reflexivity.
Qed.

(** Claim C6.  An input whose trimmed form does not start with
    [/uploads/], and whose URL parsing either raises or yields a path
    that, with backslashes turned into slashes, does not start with
    [/uploads/], resolves to [None]. *)
Theorem C6_unrecognised_is_absent (P : Platform) (s : fs) (url : string) :
  Str.startswith (Str.strip url) "/uploads/" = false ->
  (forall uu,
      Urllib.urlparse (Str.strip url) = Ok uu ->
      Str.startswith (Str.replace (path uu) "\" "/") "/uploads/" = false) ->
  local_upload_path_from_url s (PyStr url) = Ok None.
Proof. apply resolver_unrecognised. Qed.

(** Claim C10.  The prefix test is case-sensitive in both branches: when
    the trimmed input starts with a variant of [/uploads/] that differs
    from it in letter case only, and the parsed, backslash-normalised
    path does not start with the lowercase [/uploads/] either, the
    resolver returns [None]. *)
Theorem C10_prefix_is_case_sensitive (P : Platform) (s : fs)
        (url variant : string) :
  variant <> "/uploads/" ->
  Str.lower variant = "/uploads/" ->
  Str.startswith (Str.strip url) variant = true ->
  (forall uu,
      Urllib.urlparse (Str.strip url) = Ok uu ->
      Str.startswith (Str.replace (path uu) "\" "/") "/uploads/" = false) ->
  local_upload_path_from_url s (PyStr url) = Ok None.
Proof.
  intros Hne Hlow Hv Hp. apply resolver_unrecognised; auto.
  destruct (Str.startswith (Str.strip url) "/uploads/") eqn:E; auto.
  exfalso. apply Hne.
  apply (startswith_same_length (Str.strip url)); auto.
  unfold Str.lower in Hlow.
  now rewrite <- (map_length Str.lower_char variant), Hlow.
Qed.

(* ------------------------------------------------------------------ *)
(** ** The batch deleter: claims C2, C7, C9 *)

Section Batch.
Context {P : Platform}.

Lemma step_candidates_grow (st st' : fs * list string * list string)
      (u : string) :
  step st u st' -> incl (snd st) (snd st').
Proof.
  intros S; inversion S; subst; simpl;
    auto using incl_refl, incl_appl.
Qed.

Lemma loop_candidates_grow (us : list string)
      (st st' : fs * list string * list string) :
  delete_loop us st = Ok st' -> incl (snd st) (snd st').
Proof.
  intros H.
  apply (delete_loop_ind (fun x => incl (snd st) (snd x)) us) with (st := st);
    auto using incl_refl.
  intros st1 u st2 _ I1 S. eapply incl_tran; [ exact I1 | ].
  eapply step_candidates_grow; eassumption.
Qed.

(** A url that resolves when its turn comes leaves its path among
    the candidates. *)
Lemma loop_records_candidate (us : list string) (u : string) (p : Path) :
  In u us ->
  (forall t, local_upload_path_from_url t (PyStr u) = Ok (Some p)) ->
  forall st st',
    delete_loop us st = Ok st' -> In (Pathlib.str p) (snd st').
Proof.
  intros Hin Hres. induction us as [|a us IH]; [ contradiction | ].
  intros st st' H. cbn [delete_loop] in H.
  destruct (delete_one_step st a) as (st1 & H1 & S1).
  rewrite H1 in H; cbn [bind] in H.
  destruct Hin as [->|Hin]; [ | eapply IH; eassumption ].
  apply (loop_candidates_grow _ _ H).
  inversion S1; subst; simpl;
    match goal with
    | E : local_upload_path_from_url _ _ = _ |- _ =>
        rewrite Hres in E; try discriminate E; injection E as <-
    end; apply in_or_app; right; now left.
Qed.

(** An iteration records the path it resolved, whatever the existence
    test and the unlink do. *)
Lemma delete_one_records (s : fs) (removed candidates : list string)
      (u : string) (p : Path) :
  local_upload_path_from_url s (PyStr u) = Ok (Some p) ->
  exists s' removed',
    delete_one (s, removed, candidates) u
      = Ok (s', removed', candidates ++ [Pathlib.str p]).
Proof.
  intros Hp.
  destruct (delete_one_step (s, removed, candidates) u) as (st' & H & S).
  rewrite H. inversion S; subst;
    match goal with
    | E : local_upload_path_from_url _ _ = _ |- _ =>
        rewrite Hp in E; try discriminate E; injection E as <-
    end; eauto.
Qed.

Lemma set_iter_singleton (x : string) :
  set_semantics P -> set_iter [x] = [x].
Proof.
  intros S. destruct (S [x]) as [Hnd Hin].
  destruct (set_iter [x]) as [|a r] eqn:E.
  - exfalso. apply (Hin x). now left.
  - assert (a = x) as ->.
    { destruct (proj1 (Hin a) (or_introl eq_refl)) as [H|[]]; auto. }
    f_equal. destruct r as [|b r]; [ reflexivity | exfalso ].
    assert (b = x) as ->.
    { destruct (proj1 (Hin b) (or_intror (or_introl eq_refl))) as [H|[]];
        auto. }
    inversion Hnd as [|? ? Hnot _]; subst. apply Hnot. now left.
Qed.

End Batch.

(** Claim C2.  For every input list, whatever its elements, the batch
    deleter returns a pair in which every element of [removed] also
    occurs in [candidates]. *)
Theorem C2_removed_subset_of_candidates (P : Platform) (s : fs)
        (urls : list PyVal) :
  exists removed candidates s',
    delete_local_uploads s urls = Ok (removed, candidates, s')
    /\ incl removed candidates.
Proof.
  destruct (delete_local_uploads_run s urls) as (s' & rm & c & Hrun & H).
  exists rm, c, s'. split; [ exact H | ].
  apply (delete_loop_ind
           (fun st => incl (snd (fst st)) (snd st))
           (set_iter (string_urls urls)))
    with (st := (s, [], [])) (st' := (s', rm, c)); auto.
  - intros st u st' _ I S; inversion S; subst; simpl in *;
      auto using incl_appl, incl_app, incl_appr, incl_refl.
  - simpl. apply incl_refl.
Qed.

(** Claim C7.  A path that resolves is appended to [candidates] whatever
    the existence test and the unlink do: this holds for one iteration,
    and for the whole call on every non-blank string of the input that
    resolves.  For the input [["/uploads/missing.jpg"]], when the guard
    accepts the path and the file does not exist, the result is
    [removed = []] and [candidates = [UPLOADS_DIR/missing.jpg]], the
    filesystem unchanged. *)
Theorem C7_candidates_recorded_unconditionally (P : Platform) (s : fs) :
  (forall u removed candidates p,
      local_upload_path_from_url s (PyStr u) = Ok (Some p) ->
      exists s' removed',
        delete_one (s, removed, candidates) u
          = Ok (s', removed', candidates ++ [Pathlib.str p]))
  /\ (set_semantics P ->
      forall urls removed candidates s' u p,
        delete_local_uploads s urls = Ok (removed, candidates, s') ->
        In (PyStr u) urls ->
        Str.strip u <> "" ->
        (forall t, local_upload_path_from_url t (PyStr u) = Ok (Some p)) ->
        In (Pathlib.str p) candidates)
  /\ (set_semantics P ->
      _is_subpath s (UPLOADS_DIR // "missing.jpg") UPLOADS_DIR = true ->
      Path_exists s (UPLOADS_DIR // "missing.jpg") = Ok false ->
      delete_local_uploads s [PyStr "/uploads/missing.jpg"]
        = Ok ([], [Pathlib.str (UPLOADS_DIR // "missing.jpg")], s)).
Proof.
  refine (conj _ (conj _ _)).
  - intros u rm c p Hp. now apply delete_one_records.
  - intros Hset urls rm c s' u p H Hin Hne Hres.
    apply delete_local_uploads_inv in H.
    refine (@loop_records_candidate P (set_iter (string_urls urls)) u p
              _ Hres _ _ H).
    apply (Hset (string_urls urls)). now apply in_string_urls.
  - intros Hset Hguard Hex.
    assert (Hf : local_upload_path_from_url s (PyStr "/uploads/missing.jpg")
                 = Ok (Some (UPLOADS_DIR // "missing.jpg"))).
    { rewrite resolver_relative by reflexivity.
      change (Str.removeprefix (Str.strip "/uploads/missing.jpg") "/uploads/")
        with "missing.jpg".
      unfold guarded.
      change (Str.lstrip "missing.jpg" "/\") with "missing.jpg".
      now rewrite Hguard. }
    unfold delete_local_uploads.
    change (string_urls [PyStr "/uploads/missing.jpg"])
      with ["/uploads/missing.jpg"].
    rewrite (set_iter_singleton _ Hset).
    cbn [delete_loop]. unfold delete_one. rewrite Hf; cbn [bind].
    unfold try_except. rewrite Hex; cbn [bind]. reflexivity.
Qed.

(** Claim C9.  Where the canonical form of [UPLOADS_DIR] exists, an
    input whose trimmed form is [/uploads/] followed only by slashes and
    backslashes resolves to [UPLOADS_DIR] itself, and the batch deleter
    called on [["/uploads/"]] reports the uploads directory as its one
    candidate. *)
Theorem C9_bare_prefix_is_root (P : Platform) (s : fs) (cr : Path) :
  resolve s UPLOADS_DIR = Ok cr ->
  (forall url t,
      Str.strip url = ("/uploads/" ++ t)%string ->
      Str.forallb is_slash t = true ->
      local_upload_path_from_url s (PyStr url) = Ok (Some UPLOADS_DIR))
  /\ (set_semantics P ->
      exists removed s',
        delete_local_uploads s [PyStr "/uploads/"]
          = Ok (removed, [Pathlib.str UPLOADS_DIR], s')).
Proof.
  intros Hr.
  assert (A : forall url t,
             Str.strip url = ("/uploads/" ++ t)%string ->
             Str.forallb is_slash t = true ->
             local_upload_path_from_url s (PyStr url) = Ok (Some UPLOADS_DIR)).
  { intros url t H Ht.
    rewrite resolver_relative by (rewrite H; apply startswith_app).
    rewrite H, removeprefix_app. unfold guarded.
    rewrite (lstrip_slashes _ Ht), joinpath_empty.
    replace (_is_subpath s UPLOADS_DIR UPLOADS_DIR) with true;
      [ reflexivity | ].
    symmetry. apply is_subpath_spec. exists cr, cr.
    auto using within_refl. }
  split; [ exact A | ].
  intros Hset. unfold delete_local_uploads.
  change (string_urls [PyStr "/uploads/"]) with ["/uploads/"].
  rewrite (set_iter_singleton _ Hset). cbn [delete_loop].
  destruct (delete_one_records s [] [] "/uploads/" (A "/uploads/" "" eq_refl eq_refl))
    as (s' & rm & H).
  rewrite H. cbn [bind app]. eauto.
Qed.

(* ------------------------------------------------------------------ *)
(** ** Deletion on a sequential filesystem: claims C4, C8 *)

Section Sequential.
Context {P : Platform}.


Lemma unlinks_not_removable (s s' : fs) (p : Path) :
  deletion_laws P -> unlinks s s' -> ~ removable s p -> ~ removable s' p.
Proof.
  intros L U. induction U as [|s q s1 s2 He Hu _ IH]; auto.
  intros Hn. apply IH. intros R. apply Hn.
  eapply removable_antitone; eassumption.
Qed.

Lemma unlinks_resolve (s s' : fs) :
  canon_stable P -> unlinks s s' -> forall p, resolve s' p = resolve s p.
Proof.
  intros C U. induction U as [|s q s1 s2 He Hu _ IH]; auto.
  intros p. rewrite IH. eapply C; eassumption.
Qed.

(** The resolver reads the filesystem through [resolve] only. *)
Lemma resolver_ext (s s' : fs) :
  (forall p, resolve s' p = resolve s p) ->
  forall v, local_upload_path_from_url s' v = local_upload_path_from_url s v.
Proof.
  intros E v.
  assert (G : forall rel, guarded s' rel = guarded s rel).
  { intros rel. unfold guarded, _is_subpath. now rewrite !E. }
  destruct (isinstance_str v) eqn:I;
    [ | now rewrite !resolver_not_str by auto ].
  destruct v as [| | |u| |]; try discriminate I.
  destruct (Str.startswith (Str.strip u) "/uploads/") eqn:H.
  - now rewrite !resolver_relative, G by auto.
  - rewrite !resolver_absolute by auto.
    destruct (Urllib.urlparse (Str.strip u)); auto.
    cbv zeta. now rewrite G.
Qed.

Lemma candidates_at_ext (s s' : fs) (us : list string) :
  (forall v, local_upload_path_from_url s' v = local_upload_path_from_url s v) ->
  candidates_at s' us = candidates_at s us.
Proof.
  intros E. unfold candidates_at.
  induction us as [|u us IH]; simpl; [ reflexivity | ].
  now rewrite E, IH.
Qed.

(** A first run: where it ends, what it records, and that nothing it
    met can be removed afterwards. *)
Lemma first_run (us : list string) :
  deletion_laws P -> canon_stable P ->
  forall s rm c s1 rm1 c1,
    delete_loop us (s, rm, c) = Ok (s1, rm1, c1) ->
    unlinks s s1
    /\ c1 = c ++ candidates_at s us
    /\ (forall u p,
           In u us ->
           local_upload_path_from_url s (PyStr u) = Ok (Some p) ->
           ~ removable s1 p).
Proof.
  intros L C. induction us as [|u us IH]; intros s rm c s1 rm1 c1 H;
    cbn [delete_loop] in H.
  - injection H as <- <- <-. repeat split.
    + constructor.
    + simpl. now rewrite app_nil_r.
    + contradiction.
  - destruct (delete_one_step (s, rm, c) u) as (st' & H1 & S1).
    rewrite H1 in H; cbn [bind] in H.
    inversion S1 as [? ? ? ? Hp|? ? ? ? p Hp Hn|? ? ? ? p s' Hp He Hu];
      subst; destruct (IH _ _ _ _ _ _ H) as (U & Hc & Hq);
      unfold candidates_at at 1; cbn [flat_map]; rewrite Hp;
      fold (candidates_at s us).
    + repeat split; auto.
      intros u' p' [<-|Hin] Hp'; [ congruence | eauto ].
    + repeat split; auto.
      * now rewrite Hc, <- app_assoc.
      * intros u' p' [<-|Hin] Hp'; [ | eauto ].
        assert (p' = p) as -> by congruence.
        eapply unlinks_not_removable; eassumption.
    + assert (U1 : unlinks s s') by (econstructor; eauto; constructor).
      assert (E : forall v, local_upload_path_from_url s' v
                            = local_upload_path_from_url s v)
        by (apply resolver_ext, unlinks_resolve; auto).
      repeat split.
      * econstructor; eauto.
      * rewrite Hc, <- app_assoc. simpl.
        now rewrite (candidates_at_ext s s' us E).
      * intros u' p' [<-|Hin] Hp'.
        -- assert (p' = p) as -> by congruence.
           eapply unlinks_not_removable; eauto.
           eapply removed_is_gone; eassumption.
        -- apply (Hq u'); auto. now rewrite E.
Qed.

(** A run in which nothing can be removed records the candidates and
    leaves the filesystem alone. *)
Lemma quiet_run (us : list string) (t : fs) :
  (forall u p,
      In u us ->
      local_upload_path_from_url t (PyStr u) = Ok (Some p) ->
      ~ removable t p) ->
  forall rm c,
    delete_loop us (t, rm, c) = Ok (t, rm, c ++ candidates_at t us).
Proof.
  induction us as [|u us IH]; intros Hq rm c; cbn [delete_loop].
  - simpl. now rewrite app_nil_r.
  - destruct (delete_one_step (t, rm, c) u) as (st' & H1 & S1).
    rewrite H1; cbn [bind].
    unfold candidates_at at 1; cbn [flat_map]; fold (candidates_at t us).
    inversion S1 as [? ? ? ? Hp|? ? ? ? p Hp Hn|? ? ? ? p s' Hp He Hu];
      subst; rewrite Hp.
    + apply IH. intros; apply (Hq u0); simpl; auto.
    + rewrite IH by (intros; apply (Hq u0); simpl; auto).
      now rewrite <- app_assoc.
    + exfalso. apply (Hq u p); simpl; auto. split; eauto.
Qed.








(** [candidates] gains at most one entry per url, each the string of
    a path that url resolved to. *)
Lemma candidates_shape (us : list string) :
  NoDup us ->
  forall s rm c s' rm' c',
    delete_loop us (s, rm, c) = Ok (s', rm', c') ->
    exists sel ent,
      c' = c ++ ent /\ NoDup sel /\ incl sel us
      /\ Forall2
           (fun u e =>
              exists t p,
                local_upload_path_from_url t (PyStr u) = Ok (Some p)
                /\ e = Pathlib.str p)
           sel ent.
Proof.
  induction us as [|u us IH]; intros Hnd s rm c s' rm' c' H;
    cbn [delete_loop] in H.
  - injection H as <- <- <-. exists [], []. rewrite app_nil_r.
    repeat split; auto using NoDup_nil, incl_nil_l.
  - inversion Hnd as [|? ? Hnot Hnd']; subst.
    destruct (delete_one_step (s, rm, c) u) as (st' & H1 & S1).
    rewrite H1 in H; cbn [bind] in H.
    inversion S1 as [? ? ? ? Hp|? ? ? ? p Hp Hn|? ? ? ? p s1 Hp He Hu];
      subst; destruct (IH Hnd' _ _ _ _ _ _ H) as (sel & ent & -> & Hs & Hi & F).
    + exists sel, ent. repeat split; auto using incl_tl.
    + exists (u :: sel), (Pathlib.str p :: ent). repeat split.
      * now rewrite <- app_assoc.
      * constructor; auto.
      * apply incl_cons; [ now left | auto using incl_tl ].
      * constructor; eauto.
    + exists (u :: sel), (Pathlib.str p :: ent). repeat split.
      * now rewrite <- app_assoc.
      * constructor; auto.
      * apply incl_cons; [ now left | auto using incl_tl ].
      * constructor; eauto.
Qed.

End Sequential.





(* ------------------------------------------------------------------ *)
(** ** Lexical canonicalisation: claim C5 *)

Lemma joinpath_relative (p : Path) (rest : string) :
  p // Str.lstrip rest "/\"
  = mkPath (root p) (parts p ++ Pathlib.segments (Str.lstrip rest "/\")).
Proof.
  unfold Pathlib.joinpath, Pathlib.parse. now rewrite lstrip_no_root.
Qed.

(** Segments without [..] are pushed as they come. *)
Lemma collapse_onto_clean (clean segs stack : list string) :
  forallb (fun x => negb (x =? "..")) clean = true ->
  Pathlib.collapse_onto stack (clean ++ segs)
  = Pathlib.collapse_onto (rev clean ++ stack) segs.
Proof.
  revert stack. induction clean as [|x clean IH]; intros stack H;
    [ reflexivity | ].
  cbn [forallb] in H. apply andb_prop in H as [Hx H].
  cbn [app Pathlib.collapse_onto]. apply negb_true_iff in Hx. rewrite Hx.
  rewrite IH by exact H. cbn [rev]. now rewrite <- app_assoc.
Qed.

(** Segments that never climb above the top of [inner] leave [outer]
    untouched. *)
Lemma collapse_onto_below (segs inner outer : list string) :
  Pathlib.stays_below (List.length inner) segs = true ->
  Pathlib.collapse_onto (inner ++ outer) segs
  = rev outer ++ Pathlib.collapse_onto inner segs.
Proof.
  revert inner. induction segs as [|x segs IH]; intros inner H;
    cbn [Pathlib.collapse_onto Pathlib.stays_below] in *.
  - apply rev_app_distr.
  - destruct (x =? "..").
    + destruct inner as [|a inner]; [ discriminate H | ].
      cbn [List.length] in H. cbn [app tl]. now apply IH.
    + apply (IH (x :: inner)). exact H.
Qed.

Lemma collapse_under (dir segs : list string) :
  forallb (fun x => negb (x =? "..")) dir = true ->
  Pathlib.stays_below 0 segs = true ->
  Pathlib.collapse (dir ++ segs) = dir ++ Pathlib.collapse segs.
Proof.
  intros Hd Hs. unfold Pathlib.collapse.
  rewrite collapse_onto_clean by exact Hd. rewrite app_nil_r.
  change (rev dir) with ([] ++ rev dir).
  rewrite collapse_onto_below by exact Hs.
  now rewrite rev_involutive.
Qed.

Section Lexical.
Context {P : Platform}.

Lemma uploads_dir_normal :
  normal_base P ->
  forallb (fun x => negb (x =? "..")) (parts UPLOADS_DIR) = true.
Proof.
  intros [_ Hb]. rewrite uploads_dir_eq. cbn [root parts].
  rewrite forallb_app, Hb. reflexivity.
Qed.

(** Where the canonical forms of [UPLOADS_DIR] and of the joined path
    are the lexical ones, the guard accepts every remainder whose [..]
    segments stay below [UPLOADS_DIR]. *)
Lemma lexical_guard_accepts (s : fs) (rest : string) :
  normal_base P ->
  lexical_at s UPLOADS_DIR ->
  lexical_at s (UPLOADS_DIR // Str.lstrip rest "/\") ->
  Pathlib.traversal_safe (Str.lstrip rest "/\") = true ->
  _is_subpath s (UPLOADS_DIR // Str.lstrip rest "/\") UPLOADS_DIR = true.
Proof.
  intros Hb Hroot Hpath Hsafe.
  pose proof (uploads_dir_normal Hb) as Hclean.
  apply is_subpath_spec. unfold lexical_at in Hroot, Hpath.
  rewrite joinpath_relative in Hpath |- *. cbn [root parts] in Hpath.
  set (segs := Pathlib.segments (Str.lstrip rest "/\")) in *.
  rewrite collapse_under in Hpath by assumption.
  assert (E : Pathlib.collapse (parts UPLOADS_DIR) = parts UPLOADS_DIR).
  { rewrite <- (app_nil_r (parts UPLOADS_DIR)) at 1.
    rewrite collapse_under by auto. cbn. apply app_nil_r. }
  rewrite E in Hroot.
  eexists _, _. split; [ exact Hpath | split; [ exact Hroot | ] ].
  split; cbn [root parts]; eauto.
Qed.

End Lexical.

(** Claim C5 (as amended).  Let [BASE_DIR] be canonical and let the
    canonical form of [UPLOADS_DIR] be [UPLOADS_DIR] itself.  For an
    input whose trimmed form is [/uploads/<rest>], where the [..]
    segments of [rest] do not climb above [UPLOADS_DIR] and
    canonicalising the joined path succeeds and follows no symbolic
    link, the resolver strips the prefix and the leading slashes and
    backslashes of [rest] and returns [UPLOADS_DIR] joined with what
    remains.  Under that condition [/uploads/a/b.png] resolves to a
    path whose segments are those of [UPLOADS_DIR] followed by [a] and
    [b.png]. *)
Theorem C5_relative_inputs_resolve_under_root (P : Platform) (s : fs) :
  normal_base P ->
  lexical_at s UPLOADS_DIR ->
  (forall url rest,
      Str.strip url = ("/uploads/" ++ rest)%string ->
      Pathlib.traversal_safe (Str.lstrip rest "/\") = true ->
      lexical_at s (UPLOADS_DIR // Str.lstrip rest "/\") ->
      local_upload_path_from_url s (PyStr url)
        = Ok (Some (UPLOADS_DIR // Str.lstrip rest "/\")))
  /\ (lexical_at s (UPLOADS_DIR // "a/b.png") ->
      exists p,
        local_upload_path_from_url s (PyStr "/uploads/a/b.png") = Ok (Some p)
        /\ p = UPLOADS_DIR // "a/b.png"
        /\ parts p = parts UPLOADS_DIR ++ ["a"; "b.png"]).
Proof.
  intros Hb Hroot.
  assert (A : forall url rest,
             Str.strip url = ("/uploads/" ++ rest)%string ->
             Pathlib.traversal_safe (Str.lstrip rest "/\") = true ->
             lexical_at s (UPLOADS_DIR // Str.lstrip rest "/\") ->
             local_upload_path_from_url s (PyStr url)
             = Ok (Some (UPLOADS_DIR // Str.lstrip rest "/\"))).
  { intros url rest H Hsafe Hpath.
    rewrite resolver_relative by (rewrite H; apply startswith_app).
    rewrite H, removeprefix_app. unfold guarded.
    now rewrite lexical_guard_accepts. }
  split; [ exact A | ].
  intros Hpath. exists (UPLOADS_DIR // Str.lstrip "a/b.png" "/\").
  split; [ | split ].
  - apply (A "/uploads/a/b.png" "a/b.png"); auto.
  - reflexivity.
  - now rewrite joinpath_relative.
Qed.

(* ------------------------------------------------------------------ *)
(** ** The in-memory platform obeys the laws *)

Module MemFacts.
Import MemFS.

Lemma parts_eqb_eq (a b : list string) : parts_eqb a b = true <-> a = b.
Proof.
  revert b. induction a as [|x a IH]; intros [|y b]; simpl;
    try (split; [ discriminate | intros H; discriminate H ]);
    [ tauto | ].
  rewrite andb_true_iff, String.eqb_eq, IH.
  split; [ intros [-> ->]; reflexivity | intros [= -> ->]; auto ].
Qed.

Lemma lookup_remove_same (k : list string) (s : state) :
  lookup k (remove k s) = None.
Proof.
  induction s as [|[k' n] s IH]; simpl; [ reflexivity | ].
  destruct (parts_eqb k k') eqn:E; [ exact IH | ].
  simpl. now rewrite E.
Qed.

Lemma lookup_remove_some (k k' : list string) (s : state) (n : node) :
  lookup k (remove k' s) = Some n -> lookup k s = Some n.
Proof.
  induction s as [|[k0 n0] s IH]; simpl; [ auto | ].
  destruct (parts_eqb k' k0) eqn:E'; destruct (parts_eqb k k0) eqn:E;
    simpl; try rewrite E; auto.
  apply parts_eqb_eq in E', E. subst k k'.
  rewrite lookup_remove_same. discriminate.
Qed.

(** What the loop can remove: an existing, writable regular file. *)
Lemma walk_dirs_remove (k : list string) (s : state) (segs : list string) :
  forall cur,
    walk_dirs (remove k s) cur segs = Ok tt -> walk_dirs s cur segs = Ok tt.
Proof.
  induction segs as [|x rest IH]; intros cur H; [ reflexivity | ].
  cbn [walk_dirs] in *. destruct (x =? ".."); [ now apply IH | ].
  destruct rest as [|y rest]; [ reflexivity | ].
  destruct (lookup (cur ++ [x]) (remove k s)) as [[w|]|] eqn:E;
    try discriminate H.
  rewrite (lookup_remove_some _ _ _ E). now apply IH.
Qed.

(** What the loop can remove: an existing, writable regular file at the
    end of a walk through existing directories. *)
Lemma removable_iff (s : state) (p : Path) :
  removable (P := platform) s p <->
  Str.has_nul (Pathlib.str p) = false
  /\ lookup (key_of (Pathlib.str p)) s = Some (File true)
  /\ key_of (Pathlib.str p) <> []
  /\ walk_dirs s [] (parts (Pathlib.parse (Pathlib.str p))) = Ok tt.
Proof.
  unfold removable, Path_exists, Path_unlink. cbn [os_stat os_unlink platform].
  unfold mem_stat, mem_unlink.
  destruct (Str.has_nul (Pathlib.str p)).
  { split; [ intros [H _]; discriminate H | intros [H _]; discriminate H ]. }
  destruct (walk_dirs s [] (parts (Pathlib.parse (Pathlib.str p))))
    as [[]|e]; cbn [bind].
  2: { split; [ | intros (_ & _ & _ & H); discriminate H ].
       intros [H _]. destruct e as [| | |n]; try discriminate H.
       destruct n; discriminate H. }
  destruct (key_of (Pathlib.str p)) as [|x k].
  { split; [ intros [_ [s' H]]; discriminate H
           | intros (_ & _ & H & _); now elim H ]. }
  destruct (lookup (x :: k) s) as [[[|]|]|].
  - split; [ intros _; repeat split; discriminate | eauto ].
  - split; [ intros [_ [s' H]]; discriminate H | intros (_ & H & _); discriminate H ].
  - split; [ intros [_ [s' H]]; discriminate H | intros (_ & H & _); discriminate H ].
  - split; [ intros [H _]; discriminate H | intros (_ & H & _); discriminate H ].
Qed.

Lemma unlink_removes (s s' : state) (p : Path) :
  Path_exists (P := platform) s p = Ok true ->
  Path_unlink (P := platform) true s p = Ok s' ->
  s' = remove (key_of (Pathlib.str p)) s.
Proof.
  unfold Path_exists, Path_unlink. cbn [os_stat os_unlink platform].
  unfold mem_stat, mem_unlink.
  destruct (Str.has_nul (Pathlib.str p)); [ discriminate | ].
  destruct (walk_dirs s [] (parts (Pathlib.parse (Pathlib.str p))))
    as [[]|e]; cbn [bind].
  2: { intros H. destruct e as [| | |n]; try discriminate H.
       destruct n; discriminate H. }
  destruct (key_of (Pathlib.str p)) as [|x k]; [ discriminate | ].
  destruct (lookup (x :: k) s) as [[[|]|]|]; try discriminate.
  now intros _ [= <-].
Qed.

Lemma deletion : deletion_laws platform.
Proof.
  split.
  - intros s s' p He Hu R. rewrite (unlink_removes s p He Hu) in R.
    apply removable_iff in R as (_ & R & _).
    rewrite lookup_remove_same in R. discriminate R.
  - intros s s' q p He Hu R. rewrite (unlink_removes s q He Hu) in R.
    apply removable_iff in R as (Hn & R & Hk & Hw).
    apply removable_iff. repeat split; auto.
    + eapply lookup_remove_some; eassumption.
    + eapply walk_dirs_remove; eassumption.
Qed.

Lemma canon : canon_stable platform.
Proof. intros s s' q p _ _. reflexivity. Qed.


Lemma base : normal_base platform.
Proof. split; reflexivity. Qed.

Lemma sets : set_semantics platform.
Proof.
  intros l. cbn [set_iter platform]. split.
  - apply NoDup_nodup.
  - intros x. apply nodup_In.
Qed.

End MemFacts.

(* ------------------------------------------------------------------ *)
(** ** The statements at work on the in-memory platform *)

(** Claim C1, refuted as stated.  [/uploads/d/x] names the link [x] of
    the directory [/outside], reached through the link [d]; its
    canonical form is [a.jpg] in the uploads directory, so the guard
    accepts it, and the unlink removes the entry [x] of [/outside]:
    nothing else changes, [a.jpg] is still there. *)
Lemma C1_counterexample :
  exists s',
    LinkFS.delete LinkFS.escape [PyStr "/uploads/d/x"]
    = Ok (["/srv/api/data/uploads/d/x"], ["/srv/api/data/uploads/d/x"], s')
    /\ LinkFS.lnk_resolve LinkFS.escape (UPLOADS_DIR (P := LinkFS.platform))
       = Ok (mkPath "/" ["srv"; "api"; "data"; "uploads"])
    /\ LinkFS.lookup ["outside"; "x"] LinkFS.escape
       = Some (LinkFS.Link "/srv/api/data/uploads/a.jpg")
    /\ s' = LinkFS.remove ["outside"; "x"] LinkFS.escape
    /\ LinkFS.lookup ["outside"; "x"] s' = None
    /\ LinkFS.lookup ["srv"; "api"; "data"; "uploads"; "a.jpg"] s'
       = Some (LinkFS.File true)
    /\ ~ within (mkPath "/" ["outside"; "x"])
                (mkPath "/" ["srv"; "api"; "data"; "uploads"]).
Proof.
  eexists. split; [ vm_compute; reflexivity | ].
  repeat split; try reflexivity.
  intros [_ [rel H]]. discriminate H.
Qed.

Lemma C1_witness :
  contained (P := MemFS.platform) MemFS.sample (MemFS.uploads_file "a.jpg")
  /\ _is_subpath (P := MemFS.platform) MemFS.sample
       (mkPath "/" ["x"; "y"]) (mkPath "/" ["x"]) = true
  /\ _is_subpath (P := MemFS.platform) MemFS.sample
       (mkPath "/" [MemFS.nul_name]) (mkPath "/" []) = false
  /\ MemFS.resolve_url MemFS.sample (PyStr "/uploads/../secret.txt") = Ok None
  /\ MemFS.resolve_url MemFS.sample (PyStr "http://h/uploads/../../etc/passwd")
     = Ok None
  /\ deletes_within (P := MemFS.platform) MemFS.sample MemFS.cleaned.
Proof.
  destruct (C1_resolved_paths_stay_in_root MemFS.platform MemFS.sample)
    as (H1 & H2 & H3 & H4 & H5 & H6).
  refine (conj _ (conj _ (conj _ (conj _ (conj _ _))))).
  - apply (H1 (PyStr "/uploads/a.jpg")). reflexivity.
  - apply H2. exists (mkPath "/" ["x"; "y"]), (mkPath "/" ["x"]).
    repeat split; try reflexivity. exists ["y"]. reflexivity.
  - apply (H3 _ _ ValueError). left. reflexivity.
  - apply (H4 _ "../secret.txt"); [ reflexivity | ].
    intros C. apply is_subpath_contained in C. vm_compute in C. discriminate C.
  - apply (H5 _ (mkParseResult "http" "h" "/uploads/../../etc/passwd" "" "" ""));
      [ reflexivity | reflexivity | ].
    intros C. apply is_subpath_contained in C. vm_compute in C. discriminate C.
  - apply (H6 [PyStr "/uploads/a.jpg"; PyStr "http://host/uploads/b.png"]
              ["/srv/api/data/uploads/a.jpg"; "/srv/api/data/uploads/b.png"]
              ["/srv/api/data/uploads/a.jpg"; "/srv/api/data/uploads/b.png"]).
    reflexivity.
Defined.

(** Claim C3, refuted as stated.  A URL of an external domain whose
    path is under [/uploads/] does not resolve to [None] but to the
    local file of that name, and so does a [data:] URI whose text
    begins with [/uploads/].  A file that is gone by the time of the
    unlink is not omitted from [removed]: the error is absorbed and the
    path recorded. *)
Lemma C3_counterexample :
  MemFS.resolve_url MemFS.sample (PyStr "https://external.com/uploads/a.jpg")
  = Ok (Some (MemFS.uploads_file "a.jpg"))
  /\ MemFS.resolve_url MemFS.sample (PyStr "https://external.com/uploads/a.jpg")
     <> Ok None
  /\ MemFS.resolve_url MemFS.sample (PyStr "data:/uploads/a.jpg")
     = Ok (Some (MemFS.uploads_file "a.jpg"))
  /\ os_unlink (Platform := RaceFS.platform) MemFS.sample
       "/srv/api/data/uploads/a.jpg"
     = Raise (OSError ENOENT)
  /\ delete_local_uploads (P := RaceFS.platform) MemFS.sample
       [PyStr "/uploads/a.jpg"]
     = Ok (["/srv/api/data/uploads/a.jpg"], ["/srv/api/data/uploads/a.jpg"],
           MemFS.sample).
Proof.
  split; [ reflexivity | ]. split; [ vm_compute; discriminate | ].
  repeat split; reflexivity.
Qed.

Lemma C3_witness :
  MemFS.resolve_url MemFS.sample (PyInt 3) = Ok None
  /\ MemFS.resolve_url MemFS.sample (PyStr "http://[::1/uploads/a.png") = Ok None
  /\ MemFS.resolve_url MemFS.sample (PyStr " data:image/png,/uploads/a.jpg")
     = Ok None
  /\ delete_loop (P := MemFS.platform) ["/uploads/locked.jpg"]
       (MemFS.sample, [], [])
     = delete_loop (P := MemFS.platform) []
         (MemFS.sample, [], [] ++ ["/srv/api/data/uploads/locked.jpg"])
  /\ delete_loop (P := RaceFS.platform) ["/uploads/a.jpg"]
       (MemFS.sample, [], [])
     = delete_loop (P := RaceFS.platform) []
         (MemFS.sample, [] ++ ["/srv/api/data/uploads/a.jpg"],
          [] ++ ["/srv/api/data/uploads/a.jpg"]).
Proof.
  destruct (C3_no_exception_escapes MemFS.platform MemFS.sample)
    as (_ & _ & H3 & H4 & H5 & _ & _ & _ & _ & H10 & _).
  destruct (C3_no_exception_escapes RaceFS.platform MemFS.sample)
    as (_ & _ & _ & _ & _ & _ & _ & _ & _ & _ & H11).
  refine (conj _ (conj _ (conj _ (conj _ _)))).
  - apply H3. reflexivity.
  - apply H4; [ reflexivity | ].
    intros uu H. vm_compute in H. discriminate H.
  - apply (H5 _ "image/png,/uploads/a.jpg"); reflexivity.
  - apply (H10 "/uploads/locked.jpg" [] [] [] (MemFS.uploads_file "locked.jpg")
               (OSError EACCES)); [ reflexivity | ].
    right. split; reflexivity.
  - apply (H11 "/uploads/a.jpg" [] [] [] (MemFS.uploads_file "a.jpg"));
      reflexivity.
Defined.



(** Claim C5, refuted as stated.  [a], NUL, [b] has no traversal
    segment, yet [/uploads/a<NUL>b] does not resolve to
    [UPLOADS_DIR/a<NUL>b], because canonicalising a path with an
    embedded NUL raises.  Nor has [d/y], yet [/uploads/d/y] resolves to
    nothing where [d] is a link that leads out of the uploads
    directory. *)
Lemma C5_counterexample :
  (Str.strip ("/uploads/" ++ MemFS.nul_name)
   = ("/uploads/" ++ MemFS.nul_name)%string
   /\ Pathlib.traversal_safe (Str.lstrip MemFS.nul_name "/\") = true
   /\ MemFS.resolve_url MemFS.sample (PyStr ("/uploads/" ++ MemFS.nul_name))
      = Ok None
   /\ MemFS.resolve_url MemFS.sample (PyStr ("/uploads/" ++ MemFS.nul_name))
      <> Ok (Some (UPLOADS_DIR (P := MemFS.platform)
                    // Str.lstrip MemFS.nul_name "/\")))
  /\ (Pathlib.traversal_safe (Str.lstrip "d/y" "/\") = true
      /\ LinkFS.resolve_url LinkFS.escape (PyStr "/uploads/d/y") = Ok None
      /\ LinkFS.resolve_url LinkFS.escape (PyStr "/uploads/d/y")
         <> Ok (Some (UPLOADS_DIR (P := LinkFS.platform) // "d/y"))).
Proof.
  split.
  - repeat split; try reflexivity. vm_compute. discriminate.
  - repeat split; try reflexivity. vm_compute. discriminate.
Qed.

Lemma C5_witness :
  (MemFS.resolve_url MemFS.sample (PyStr "  /uploads//\x/../y.png ")
   = Ok (Some (mkPath "/" ["srv"; "api"; "data"; "uploads"; "x"; ".."; "y.png"]))
   /\ exists p,
        MemFS.resolve_url MemFS.sample (PyStr "/uploads/a/b.png") = Ok (Some p)
        /\ p = mkPath "/" ["srv"; "api"; "data"; "uploads"; "a"; "b.png"]
        /\ parts p = ["srv"; "api"; "data"; "uploads"] ++ ["a"; "b.png"])
  /\ LinkFS.resolve_url LinkFS.escape (PyStr "/uploads/a/b.png")
     = Ok (Some (mkPath "/" ["srv"; "api"; "data"; "uploads"; "a"; "b.png"])).
Proof.
  split.
  - destruct (@C5_relative_inputs_resolve_under_root
                MemFS.platform MemFS.sample MemFacts.base eq_refl)
      as (H1 & H2).
    split.
    + apply (H1 "  /uploads//\x/../y.png " "/\x/../y.png"); reflexivity.
    + apply H2. reflexivity.
  - destruct (@C5_relative_inputs_resolve_under_root
                LinkFS.platform LinkFS.escape (conj eq_refl eq_refl) eq_refl)
      as (H1 & _).
    apply (H1 "/uploads/a/b.png" "a/b.png"); reflexivity.
Defined.

Lemma C6_witness :
  MemFS.resolve_url MemFS.sample (PyStr "https://external.com/c.jpg") = Ok None.
Proof.
  apply C6_unrecognised_is_absent; [ reflexivity | ].
  intros uu H. vm_compute in H. injection H as <-. reflexivity.
Defined.

Lemma C7_witness :
  (exists s' removed',
      delete_one (P := MemFS.platform) (MemFS.sample, [], [])
        "/uploads/missing.jpg"
      = Ok (s', removed', [] ++ ["/srv/api/data/uploads/missing.jpg"]))
  /\ In "/srv/api/data/uploads/missing.jpg"
        ["/srv/api/data/uploads/a.jpg"; "/srv/api/data/uploads/missing.jpg"]
  /\ MemFS.delete MemFS.sample [PyStr "/uploads/missing.jpg"]
     = Ok ([], ["/srv/api/data/uploads/missing.jpg"], MemFS.sample).
Proof.
  destruct (C7_candidates_recorded_unconditionally MemFS.platform MemFS.sample)
    as (H1 & H2 & H3).
  refine (conj _ (conj _ _)).
  - apply (H1 "/uploads/missing.jpg" [] [] (MemFS.uploads_file "missing.jpg")).
    reflexivity.
  - apply (H2 MemFacts.sets
              [PyStr "/uploads/a.jpg"; PyStr "/uploads/missing.jpg"]
              ["/srv/api/data/uploads/a.jpg"]
              ["/srv/api/data/uploads/a.jpg"; "/srv/api/data/uploads/missing.jpg"]
              (MemFS.remove ["srv"; "api"; "data"; "uploads"; "a.jpg"] MemFS.sample)
              "/uploads/missing.jpg" (MemFS.uploads_file "missing.jpg")).
    + reflexivity.
    + simpl. auto.
    + vm_compute. discriminate.
    + intros t. reflexivity.
  - apply (H3 MemFacts.sets); reflexivity.
Defined.



Lemma C9_witness :
  MemFS.resolve_url MemFS.sample (PyStr "  /uploads//\/ ")
  = Ok (Some (UPLOADS_DIR (P := MemFS.platform)))
  /\ exists removed s',
       MemFS.delete MemFS.sample [PyStr "/uploads/"]
       = Ok (removed, ["/srv/api/data/uploads"], s').
Proof.
  destruct (@C9_bare_prefix_is_root MemFS.platform MemFS.sample
              (mkPath "/" ["srv"; "api"; "data"; "uploads"]) eq_refl)
    as (H1 & H2).
  split.
  - apply (H1 "  /uploads//\/ " "/\/"); reflexivity.
  - apply (H2 MemFacts.sets).
Defined.

Lemma C10_witness :
  MemFS.resolve_url MemFS.sample (PyStr "/UPLOADS/a.png") = Ok None.
Proof.
  apply (@C10_prefix_is_case_sensitive MemFS.platform MemFS.sample
           "/UPLOADS/a.png" "/UPLOADS/").
  - discriminate.
  - reflexivity.
  - reflexivity.
  - intros uu H. vm_compute in H. injection H as <-. reflexivity.
Defined.

(* ------------------------------------------------------------------ *)
(** ** Further properties of [_strip_slashes] and [_is_subpath] *)

Lemma lstrip_by_split (f : ascii -> bool) (x : string) :
  exists pre,
    x = (pre ++ Str.lstrip_by f x)%string /\ Str.forallb f pre = true.
Proof.
  induction x as [|c r (pre & E & H)]; [ exists ""; auto | ].
  cbn [Str.lstrip_by]. destruct (f c) eqn:Fc.
  - exists (String c pre). cbn [append Str.forallb]. rewrite Fc, H.
    now rewrite <- E.
  - exists "". auto.
Qed.

Lemma lstrip_by_head (f : ascii -> bool) (x : string) (c : ascii) (r : string) :
  Str.lstrip_by f x = String c r -> f c = false.
Proof.
  induction x as [|a x IH]; cbn [Str.lstrip_by]; [ discriminate | ].
  destruct (f a) eqn:Fa; auto. now intros [= <- _].
Qed.

Lemma lstrip_by_fixed (f : ascii -> bool) (x : string) :
  match x with String c _ => f c = false | EmptyString => True end ->
  Str.lstrip_by f x = x.
Proof. destruct x as [|c r]; cbn [Str.lstrip_by]; auto. now intros ->. Qed.

Lemma lstrip_by_idem (f : ascii -> bool) (x : string) :
  Str.lstrip_by f (Str.lstrip_by f x) = Str.lstrip_by f x.
Proof.
  apply lstrip_by_fixed. destruct (Str.lstrip_by f x) as [|c r] eqn:E; auto.
  eapply lstrip_by_head; eassumption.
Qed.

(** Property X2.  [_strip_slashes] leaves a value that is not a string
    as it is; on a string it removes a prefix made of slashes and
    backslashes only, what is left does not start with either, and
    stripping again changes nothing. *)
Theorem X2_strip_slashes_spec :
  (forall v, isinstance_str v = false -> _strip_slashes v = v)
  /\ (forall x,
         exists pre y,
           _strip_slashes (PyStr x) = PyStr y
           /\ x = (pre ++ y)%string
           /\ Str.forallb is_slash pre = true
           /\ match y with
              | String c _ => is_slash c = false
              | EmptyString => True
              end)
  /\ (forall v, _strip_slashes (_strip_slashes v) = _strip_slashes v).
Proof.
  refine (conj _ (conj _ _)).
  - intros [| | |x| |] H; try reflexivity. discriminate H.
  - intros x. cbn [_strip_slashes]. unfold Str.lstrip.
    destruct (lstrip_by_split (fun c => Str.mem c "/\") x) as (pre & E & H).
    exists pre, (Str.lstrip_by (fun c => Str.mem c "/\") x).
    repeat split; auto.
    + clear E. induction pre as [|a pre IH]; auto.
      cbn [Str.forallb] in *. apply andb_prop in H as [Ha H].
      now rewrite <- mem_slash, Ha, IH.
    + destruct (Str.lstrip_by (fun c => Str.mem c "/\") x) as [|c r] eqn:L;
        auto.
      rewrite <- mem_slash. eapply lstrip_by_head with (f := fun c => Str.mem c "/\").
      eassumption.
  - intros [| | |x| |]; try reflexivity. cbn [_strip_slashes].
    unfold Str.lstrip. now rewrite lstrip_by_idem.
Qed.

Lemma within_trans (a b c : Path) : within a b -> within b c -> within a c.
Proof.
  intros [Hr1 [r1 H1]] [Hr2 [r2 H2]]. split; [ congruence | ].
  exists (r2 ++ r1). now rewrite H1, H2, app_assoc.
Qed.

Lemma within_antisym (a b : Path) : within a b -> within b a -> a = b.
Proof.
  intros [Hr1 [r1 H1]] [_ [r2 H2]].
  assert (r1 = []).
  { assert (L : List.length (parts a) = List.length (parts a) + (List.length r2 + List.length r1)).
    { rewrite H1 at 1. rewrite H2 at 1. rewrite !length_app. lia. }
    destruct r1; [ reflexivity | simpl in L; lia ]. }
  subst r1. rewrite app_nil_r in H1.
  destruct a, b; simpl in *; congruence.
Qed.

(** Property X3.  In a given filesystem state [_is_subpath] is a
    preorder on the paths that canonicalise: every such path is its own
    subpath, a subpath of a subpath is a subpath, and two paths that are
    subpaths of each other have the same canonical form. *)
Theorem X3_is_subpath_preorder (P : Platform) (s : fs) :
  (forall p c, resolve s p = Ok c -> _is_subpath s p p = true)
  /\ (forall p q r,
         _is_subpath s p q = true -> _is_subpath s q r = true ->
         _is_subpath s p r = true)
  /\ (forall p q,
         _is_subpath s p q = true -> _is_subpath s q p = true ->
         resolve s p = resolve s q).
Proof.
  refine (conj _ (conj _ _)).
  - intros p c H. apply is_subpath_spec. exists c, c.
    auto using within_refl.
  - intros p q r H1 H2.
    apply is_subpath_spec in H1 as (cp & cq & Hp & Hq & W1).
    apply is_subpath_spec in H2 as (cq' & cr & Hq' & Hr & W2).
    assert (cq' = cq) as -> by congruence.
    apply is_subpath_spec. exists cp, cr.
    eauto using within_trans.
  - intros p q H1 H2.
    apply is_subpath_spec in H1 as (cp & cq & Hp & Hq & W1).
    apply is_subpath_spec in H2 as (cq' & cp' & Hq' & Hp' & W2).
    assert (cq' = cq) as -> by congruence.
    assert (cp' = cp) as -> by congruence.
    rewrite Hp, Hq. f_equal. now apply within_antisym.
Qed.

Lemma X3_witness :
  _is_subpath (P := MemFS.platform) MemFS.sample
    (mkPath "/" ["a"; "b"; ".."; "b"; "c"]) (mkPath "/" ["a"]) = true.
Proof.
  destruct (X3_is_subpath_preorder MemFS.platform MemFS.sample)
    as (_ & H & _).
  apply (H _ (mkPath "/" ["a"; "b"]) _); reflexivity.
Defined.

Lemma X2_witness : _strip_slashes (PyInt 7) = PyInt 7.
Proof.
  destruct X2_strip_slashes_spec as (H & _ & _). apply H. reflexivity.
Defined.

(* ------------------------------------------------------------------ *)
(** ** Further properties of [local_upload_path_from_url] *)

Lemma split_no_sep (c : ascii) (x : string) :
  Forall (fun y => Str.contains c y = false) (Str.split c x).
Proof.
  unfold Str.contains.
  induction x as [|a r IH]; cbn [Str.split]; [ repeat constructor | ].
  destruct (a =? c)%char eqn:E.
  - constructor; auto.
  - destruct (Str.split c r) as [|y ys].
    + repeat constructor. cbn [Str.mem]. now rewrite E.
    + inversion IH as [|? ? Hy Hys]; subst. constructor; auto.
      cbn [Str.mem]. now rewrite E, Hy.
Qed.

Lemma segments_clean (x : string) : Forall clean_segment (Pathlib.segments x).
Proof.
  unfold Pathlib.segments.
  generalize (split_no_sep "/" x).
  induction (Str.split "/" x) as [|y ys IH]; intros F; [ constructor | ].
  inversion F as [|? ? Hy Hys]; subst. cbn [filter].
  destruct (Pathlib.keep_segment y) eqn:K; auto.
  constructor; auto. unfold Pathlib.keep_segment in K.
  apply andb_prop in K as [K1 K2].
  apply negb_true_iff in K1, K2. apply String.eqb_neq in K1, K2.
  now repeat split.
Qed.

Section ResolverShape.
Context {P : Platform}.
Variable s : fs.

(** What is returned is [UPLOADS_DIR] joined with a stripped remainder. *)
Lemma resolver_joined (v : PyVal) (p : Path) :
  local_upload_path_from_url s v = Ok (Some p) ->
  exists rel, p = UPLOADS_DIR // Str.lstrip rel "/\".
Proof.
  destruct (isinstance_str v) eqn:E;
    [ | rewrite resolver_not_str by auto; discriminate ].
  destruct v as [| | |u| |]; try discriminate E.
  destruct (Str.startswith (Str.strip u) "/uploads/") eqn:H;
    [ rewrite resolver_relative | rewrite resolver_absolute ]; auto.
  - intros [= G]. apply guarded_some in G as [-> _]. eauto.
  - destruct (Urllib.urlparse (Str.strip u)) as [uu|e]; [ | discriminate ].
    cbv zeta.
    destruct (Str.startswith (Str.replace (path uu) "\" "/") "/uploads/");
      [ | discriminate ].
    intros [= G]. apply guarded_some in G as [-> _]. eauto.
Qed.

(** The resolver reads its argument through [strip()] only. *)
Lemma resolver_of_strip (u1 u2 : string) :
  Str.strip u1 = Str.strip u2 ->
  local_upload_path_from_url s (PyStr u1)
  = local_upload_path_from_url s (PyStr u2).
Proof.
  intros E.
  destruct (Str.startswith (Str.strip u1) "/uploads/") eqn:H.
  - rewrite (resolver_relative s u1 H). rewrite E in H.
    rewrite (resolver_relative s u2 H). now rewrite E.
  - rewrite (resolver_absolute s u1 H). rewrite E in H.
    rewrite (resolver_absolute s u2 H). now rewrite E.
Qed.

End ResolverShape.

(** Property X1.  A path returned by [local_upload_path_from_url] is
    never anchored anew: it has the root of [UPLOADS_DIR], and its
    segments are those of [UPLOADS_DIR] followed by segments that are
    not empty, not [.] and hold no slash. *)
Theorem X1_result_extends_uploads_dir (P : Platform) (s : fs) (v : PyVal)
        (p : Path) :
  local_upload_path_from_url s v = Ok (Some p) ->
  root p = root UPLOADS_DIR
  /\ exists segs,
       parts p = parts UPLOADS_DIR ++ segs /\ Forall clean_segment segs.
Proof.
  intros H. apply resolver_joined in H as [rel ->].
  rewrite joinpath_relative. cbn [root parts]. split; [ reflexivity | ].
  eexists. split; [ reflexivity | apply segments_clean ].
Qed.

Lemma X1_witness :
  root (mkPath "/" ["srv"; "api"; "data"; "uploads"; "x"; ".."; "y.png"])
  = root (UPLOADS_DIR (P := MemFS.platform))
  /\ exists segs,
       parts (mkPath "/" ["srv"; "api"; "data"; "uploads"; "x"; ".."; "y.png"])
       = parts (UPLOADS_DIR (P := MemFS.platform)) ++ segs
       /\ Forall clean_segment segs.
Proof.
  apply (@X1_result_extends_uploads_dir MemFS.platform MemFS.sample
           (PyStr "http://h/uploads\/x/./../y.png?q#f")).
  reflexivity.
Defined.

Lemma rstrip_by_idem (f : ascii -> bool) (x : string) :
  Str.rstrip_by f (Str.rstrip_by f x) = Str.rstrip_by f x.
Proof.
  induction x as [|c r IH]; [ reflexivity | ].
  cbn [Str.rstrip_by].
  destruct ((Str.rstrip_by f r =? "") && f c) eqn:E; [ reflexivity | ].
  cbn [Str.rstrip_by]. now rewrite IH, E.
Qed.

Lemma rstrip_by_head (f : ascii -> bool) (c : ascii) (r : string) :
  f c = false ->
  Str.rstrip_by f (String c r) = String c (Str.rstrip_by f r).
Proof. intros H. cbn [Str.rstrip_by]. now rewrite H, andb_false_r. Qed.

Lemma strip_idem (x : string) : Str.strip (Str.strip x) = Str.strip x.
Proof.
  unfold Str.strip.
  destruct (Str.lstrip_by Str.isspace x) as [|c r] eqn:L; [ reflexivity | ].
  pose proof (lstrip_by_head _ _ L) as Hc.
  rewrite (@rstrip_by_head Str.isspace c r Hc).
  rewrite lstrip_by_fixed by exact Hc.
  now rewrite <- (@rstrip_by_head Str.isspace c r Hc), rstrip_by_idem.
Qed.

(** Property X4.  Surrounding whitespace never matters: the resolver
    gives the same answer on a string and on its trimmed form, hence on
    any two strings with the same trimmed form. *)
Theorem X4_whitespace_is_ignored (P : Platform) (s : fs) :
  (forall u,
      local_upload_path_from_url s (PyStr (Str.strip u))
      = local_upload_path_from_url s (PyStr u))
  /\ (forall u1 u2,
         Str.strip u1 = Str.strip u2 ->
         local_upload_path_from_url s (PyStr u1)
         = local_upload_path_from_url s (PyStr u2)).
Proof.
  split.
  - intros u. apply resolver_of_strip, strip_idem.
  - intros u1 u2. apply resolver_of_strip.
Qed.

Lemma X4_witness :
  MemFS.resolve_url MemFS.sample (PyStr "  /uploads/a.jpg")
  = MemFS.resolve_url MemFS.sample (PyStr "/uploads/a.jpg   ").
Proof.
  destruct (X4_whitespace_is_ignored MemFS.platform MemFS.sample) as [_ H].
  apply H. reflexivity.
Defined.

(* ------------------------------------------------------------------ *)
(** ** Strings seen by [urlparse] *)

Lemma append_empty_r (x : string) : (x ++ "")%string = x.
Proof. induction x; simpl; congruence. Qed.

Lemma forallb_append (f : ascii -> bool) (a b : string) :
  Str.forallb f (a ++ b) = Str.forallb f a && Str.forallb f b.
Proof.
  induction a as [|c a IH]; simpl; [ reflexivity | ].
  now rewrite IH, andb_assoc.
Qed.

Lemma forallb_weaken (f g : ascii -> bool) (x : string) :
  (forall c, f c = true -> g c = true) ->
  Str.forallb f x = true -> Str.forallb g x = true.
Proof.
  intros I. induction x as [|c x IH]; simpl; auto.
  intros H. apply andb_prop in H as [Hc Hx]. now rewrite (I c Hc), IH.
Qed.

Lemma remove_by_append (f : ascii -> bool) (a b : string) :
  Str.remove_by f (a ++ b)
  = (Str.remove_by f a ++ Str.remove_by f b)%string.
Proof.
  induction a as [|c a IH]; simpl; [ reflexivity | ].
  destruct (f c); simpl; now rewrite IH.
Qed.

Lemma remove_by_keep (f : ascii -> bool) (x : string) :
  Str.forallb (fun c => negb (f c)) x = true -> Str.remove_by f x = x.
Proof.
  induction x as [|c x IH]; simpl; auto.
  intros H. apply andb_prop in H as [Hc Hx].
  apply negb_true_iff in Hc. now rewrite Hc, IH.
Qed.

Lemma mem_absent (c : ascii) (x : string) :
  Str.forallb (fun a => negb (a =? c)%char) x = true -> Str.mem c x = false.
Proof.
  induction x as [|a x IH]; simpl; auto.
  intros H. apply andb_prop in H as [Ha Hx].
  apply negb_true_iff in Ha. now rewrite Ha, IH.
Qed.

Lemma mem_append (c : ascii) (a b : string) :
  Str.mem c (a ++ b) = Str.mem c a || Str.mem c b.
Proof.
  induction a as [|x a IH]; simpl; [ reflexivity | ].
  now rewrite IH, orb_assoc.
Qed.

Lemma find_absent (c : ascii) (x : string) :
  Str.forallb (fun a => negb (a =? c)%char) x = true -> Str.find c x = None.
Proof.
  induction x as [|a x IH]; simpl; auto.
  intros H. apply andb_prop in H as [Ha Hx].
  apply negb_true_iff in Ha. now rewrite Ha, IH.
Qed.

Lemma find_after (c : ascii) (a b : string) :
  Str.forallb (fun x => negb (x =? c)%char) a = true ->
  Str.find c (a ++ String c b) = Some (String.length a).
Proof.
  induction a as [|x a IH]; simpl.
  - now rewrite Ascii.eqb_refl.
  - intros H. apply andb_prop in H as [Hx Ha].
    apply negb_true_iff in Hx. now rewrite Hx, IH.
Qed.

Lemma take_append (a b : string) : Str.take (String.length a) (a ++ b) = a.
Proof. induction a; simpl; [ now destruct b | congruence ]. Qed.

Lemma drop_after (a b : string) (c : ascii) :
  Str.drop (S (String.length a)) (a ++ String c b) = b.
Proof. induction a; simpl; auto. Qed.

Lemma break_append (f : ascii -> bool) (a b : string) (c : ascii) :
  Str.forallb (fun x => negb (f x)) a = true ->
  f c = true ->
  Str.break f (a ++ String c b) = (a, String c b).
Proof.
  intros Ha Hc. induction a as [|x a IH]; simpl.
  - now rewrite Hc.
  - simpl in Ha. apply andb_prop in Ha as [Hx Ha].
    apply negb_true_iff in Hx. now rewrite Hx, IH.
Qed.

Lemma replace_append (a b : string) (x y : ascii) :
  Str.replace (a ++ b) x y = (Str.replace a x y ++ Str.replace b x y)%string.
Proof.
  unfold Str.replace. induction a as [|c a IH]; simpl; congruence.
Qed.

Lemma split_once_append (c : ascii) (p t : string) :
  Str.forallb (fun a => negb (a =? c)%char) p = true ->
  fst (Urllib.split_once c (p ++ t))
  = (p ++ fst (Urllib.split_once c t))%string.
Proof.
  induction p as [|a p IH]; simpl; auto.
  intros H. apply andb_prop in H as [Ha Hp]. apply negb_true_iff in Ha.
  rewrite split_once_cons by exact Ha. cbn [fst]. now rewrite IH.
Qed.

(** The path of [p] followed by a query or a fragment is [p]. *)
Lemma path_before_query (p suffix : string) :
  Str.forallb (fun a => negb (a =? "#")%char) p = true ->
  Str.forallb (fun a => negb (a =? "?")%char) p = true ->
  query_or_fragment suffix = true ->
  fst (Urllib.split_once "?" (fst (Urllib.split_once "#" (p ++ suffix)))) = p.
Proof.
  intros H1 H2 Hs. rewrite split_once_append by exact H1.
  destruct suffix as [|c t].
  - cbn. rewrite append_empty_r.
    rewrite <- (append_empty_r p) at 1.
    rewrite split_once_append by exact H2. cbn. apply append_empty_r.
  - cbn [query_or_fragment] in Hs. apply orb_prop in Hs as [E|E];
      apply Ascii.eqb_eq in E; subst c.
    + rewrite split_once_cons by reflexivity. cbn [fst].
      rewrite split_once_append by exact H2.
      rewrite split_once_hit. cbn. apply append_empty_r.
    + rewrite split_once_hit. cbn [fst]. rewrite append_empty_r.
      rewrite <- (append_empty_r p) at 1.
      rewrite split_once_append by exact H2. cbn. apply append_empty_r.
Qed.

Lemma scheme_char_facts (c : ascii) :
  Urllib.is_scheme_char c = true ->
  (c =? ":")%char = false /\ Urllib.is_unsafe c = false.
Proof.
  destruct c as [[] [] [] [] [] [] [] []]; vm_compute; intros H;
    try discriminate H; auto.
Qed.

Lemma alpha_facts (c : ascii) :
  Str.is_ascii_alpha c = true ->
  Urllib.is_c0_or_space c = false /\ c <> "/"%char.
Proof.
  destruct c as [[] [] [] [] [] [] [] []]; vm_compute; intros H;
    try discriminate H; split; auto; discriminate.
Qed.

Lemma split_scheme_hit (c0 : ascii) (sch' t : string) :
  Str.is_ascii_alpha c0 = true ->
  Str.forallb Urllib.is_scheme_char (String c0 sch') = true ->
  Urllib.split_scheme (String c0 sch' ++ String ":" t)
  = (Str.lower (String c0 sch'), t).
Proof.
  intros Ha Hs. unfold Urllib.split_scheme.
  rewrite find_after.
  2: { eapply forallb_weaken; [ | exact Hs ].
       intros c Hc. apply scheme_char_facts in Hc as [-> _]. reflexivity. }
  change (String c0 sch' ++ String ":" t)%string
    with (String c0 (sch' ++ String ":" t)).
  cbv iota beta.
  change (String c0 (sch' ++ String ":" t))
    with (String c0 sch' ++ String ":" t)%string.
  rewrite take_append, drop_after, Hs, Ha. reflexivity.
Qed.

Section UploadUrl.
Context {P : Platform}.
Variables (c0 : ascii) (sch' host rest suffix : string).
Hypothesis alpha : Str.is_ascii_alpha c0 = true.
Hypothesis scheme_ok : Str.forallb Urllib.is_scheme_char (String c0 sch') = true.
Hypothesis host_ok : Str.forallb host_char host = true.
Hypothesis host_passes : Urllib._checknetloc host = Ok tt.
Hypothesis rest_ok : Str.forallb path_char rest = true.
Hypothesis suffix_ok : query_or_fragment suffix = true.

Let url : string :=
  (String c0 sch' ++ "://" ++ host ++ "/uploads/" ++ rest ++ suffix)%string.

(** [urlparse] finds the path [/uploads/<rest>] in
    [<scheme>://<host>/uploads/<rest>] followed by a query or a
    fragment. *)
Lemma urlparse_upload_url :
  exists uu,
    Urllib.urlparse url = Ok uu /\ path uu = ("/uploads/" ++ rest)%string.
Proof.
  unfold Urllib.urlparse, Urllib.urlsplit, url. cbv zeta.
  rewrite lstrip_by_fixed by (cbn; apply alpha_facts, alpha).
  rewrite !remove_by_append.
  rewrite (remove_by_keep Urllib.is_unsafe (String c0 sch')).
  2: { eapply forallb_weaken; [ | exact scheme_ok ].
       intros c Hc. apply scheme_char_facts in Hc as [_ ->]. reflexivity. }
  rewrite (remove_by_keep Urllib.is_unsafe host).
  2: { eapply forallb_weaken; [ | exact host_ok ].
       intros c Hc. unfold host_char in Hc.
       now apply andb_prop in Hc as [_ Hc]. }
  rewrite (remove_by_keep Urllib.is_unsafe rest).
  2: { eapply forallb_weaken; [ | exact rest_ok ].
       intros c Hc. unfold path_char in Hc.
       now apply andb_prop in Hc as [_ Hc]. }
  change (Str.remove_by Urllib.is_unsafe "://") with "://".
  change (Str.remove_by Urllib.is_unsafe "/uploads/") with "/uploads/".
  set (suffix' := Str.remove_by Urllib.is_unsafe suffix).
  assert (Hs' : query_or_fragment suffix' = true).
  { subst suffix'. destruct suffix as [|c t]; [ reflexivity | ].
    cbn [query_or_fragment] in suffix_ok.
    apply orb_prop in suffix_ok as [E|E]; apply Ascii.eqb_eq in E; subst c;
      reflexivity. }
  change ("://" ++ host ++ "/uploads/" ++ rest ++ suffix')%string
    with (String ":" ("//" ++ host ++ "/uploads/" ++ rest ++ suffix')).
  rewrite split_scheme_hit by assumption.
  rewrite startswith_app. unfold Urllib._splitnetloc.
  change (Str.drop 2 ("//" ++ host ++ "/uploads/" ++ rest ++ suffix'))
    with (host ++ String "/" ("uploads/" ++ rest ++ suffix'))%string.
  rewrite break_append.
  2: { eapply forallb_weaken; [ | exact host_ok ].
       intros c Hc. unfold host_char in Hc.
       now repeat (apply andb_prop in Hc as [Hc _]). }
  2: reflexivity.
  assert (Hopen : Str.contains "[" host = false).
  { apply mem_absent. eapply forallb_weaken; [ | exact host_ok ].
    intros c Hc. unfold host_char in Hc.
    apply andb_prop in Hc as [Hc _]. apply andb_prop in Hc as [Hc _].
    now apply andb_prop in Hc as [_ Hc]. }
  rewrite Hopen. cbn [andb orb bind].
  assert (Hclose : Str.contains "]" host = false).
  { apply mem_absent. eapply forallb_weaken; [ | exact host_ok ].
    intros c Hc. unfold host_char in Hc.
    apply andb_prop in Hc as [Hc _]. now apply andb_prop in Hc as [_ Hc]. }
  rewrite Hclose. cbn [andb orb bind].
  set (A := Urllib.split_once "#" (String "/" ("uploads/" ++ rest ++ suffix'))).
  rewrite (surjective_pairing A). cbv iota beta.
  set (B := Urllib.split_once "?" (fst A)).
  rewrite (surjective_pairing B). cbv iota beta.
  rewrite host_passes. cbn [bind].
  assert (HB : fst B = ("/uploads/" ++ rest)%string).
  { subst B A.
    apply (path_before_query ("/uploads/" ++ rest) suffix'); auto;
      rewrite forallb_append; apply andb_true_intro;
      (split; [ reflexivity | ]);
      (eapply forallb_weaken; [ | exact rest_ok ]);
      intros c Hc; unfold path_char in Hc;
      apply andb_prop in Hc as [Hc _]; apply andb_prop in Hc as [Hc _];
      apply andb_prop in Hc as [H1 H2]; assumption. }
  rewrite HB.
  assert (Hsemi : Str.contains ";" ("/uploads/" ++ rest) = false).
  { unfold Str.contains. rewrite mem_append.
    apply orb_false_intro; [ reflexivity | ].
    apply mem_absent. eapply forallb_weaken; [ | exact rest_ok ].
    intros c Hc. unfold path_char in Hc.
    apply andb_prop in Hc as [Hc _]. now apply andb_prop in Hc as [_ Hc]. }
  rewrite Hsemi, andb_false_r.
  eexists. split; reflexivity.
Qed.

End UploadUrl.

(** An absolute URL of an upload goes through the URL branch and is
    resolved from the remainder of its path, backslashes turned into
    slashes. *)
Lemma resolver_upload_url (P : Platform) (s : fs) (c0 : ascii)
      (sch' host rest suffix u : string) :
  Str.is_ascii_alpha c0 = true ->
  Str.forallb Urllib.is_scheme_char (String c0 sch') = true ->
  Str.forallb host_char host = true ->
  Urllib._checknetloc host = Ok tt ->
  Str.forallb path_char rest = true ->
  query_or_fragment suffix = true ->
  Str.strip u
  = (String c0 sch' ++ "://" ++ host ++ "/uploads/" ++ rest ++ suffix)%string ->
  local_upload_path_from_url s (PyStr u)
  = Ok (guarded s (Str.replace rest "\" "/")).
Proof.
  intros Ha Hs Hh Hn Hr Hq E.
  assert (N : Str.startswith (Str.strip u) "/uploads/" = false).
  { rewrite E. unfold Str.startswith. cbn [append String.prefix].
    destruct (ascii_dec "/" c0) as [<-|]; [ discriminate Ha | reflexivity ]. }
  rewrite resolver_absolute by exact N. rewrite E.
  destruct (@urlparse_upload_url P c0 sch' host rest suffix Ha Hs Hh Hn Hr Hq)
    as (uu & Hu & Hp).
  rewrite Hu. cbv zeta. rewrite Hp, replace_append.
  change (Str.replace "/uploads/" "\" "/") with "/uploads/".
  now rewrite startswith_app, removeprefix_app.
Qed.

(** Property X5.  An absolute URL [<scheme>://<host>/uploads/<rest>],
    with or without a query or fragment, resolves exactly as the
    relative form [/uploads/<rest'>] where [rest'] is [rest] with its
    backslashes turned into slashes.  Here [rest] holds no [?], [#],
    [;], tab or line break, and the host no delimiter or bracket and
    passes [_checknetloc], as every ASCII host does. *)
Theorem X5_absolute_url_resolves_like_relative (P : Platform) (s : fs)
        (c0 : ascii) (sch' host rest suffix u_abs u_rel : string) :
  Str.is_ascii_alpha c0 = true ->
  Str.forallb Urllib.is_scheme_char (String c0 sch') = true ->
  Str.forallb host_char host = true ->
  Urllib._checknetloc host = Ok tt ->
  Str.forallb path_char rest = true ->
  query_or_fragment suffix = true ->
  Str.strip u_abs
  = (String c0 sch' ++ "://" ++ host ++ "/uploads/" ++ rest ++ suffix)%string ->
  Str.strip u_rel = ("/uploads/" ++ Str.replace rest "\" "/")%string ->
  local_upload_path_from_url s (PyStr u_abs)
  = local_upload_path_from_url s (PyStr u_rel).
Proof.
  intros Ha Hs Hh Hn Hr Hq Eabs Erel.
  rewrite (@resolver_upload_url P s _ _ _ _ _ _ Ha Hs Hh Hn Hr Hq Eabs).
  rewrite resolver_relative by (rewrite Erel; apply startswith_app).
  now rewrite Erel, removeprefix_app.
Qed.

Lemma X5_witness :
  MemFS.resolve_url MemFS.sample
    (PyStr " https://example.com:8000/uploads/x\b.png?v=1#top")
  = MemFS.resolve_url MemFS.sample (PyStr "/uploads/x/b.png").
Proof.
  apply (@X5_absolute_url_resolves_like_relative MemFS.platform MemFS.sample
           "h" "ttps" "example.com:8000" "x\b.png" "?v=1#top");
    reflexivity.
Defined.

(** Property X6.  In an absolute URL of an upload, the scheme, the host,
    the query and the fragment have no influence: two such URLs with the
    same path, each with a host that passes [_checknetloc], resolve
    alike. *)
Theorem X6_scheme_host_query_are_ignored (P : Platform) (s : fs)
        (c1 c2 : ascii) (sch1 sch2 host1 host2 rest suffix1 suffix2 u1 u2 : string) :
  Str.is_ascii_alpha c1 = true ->
  Str.is_ascii_alpha c2 = true ->
  Str.forallb Urllib.is_scheme_char (String c1 sch1) = true ->
  Str.forallb Urllib.is_scheme_char (String c2 sch2) = true ->
  Str.forallb host_char host1 = true ->
  Str.forallb host_char host2 = true ->
  Urllib._checknetloc host1 = Ok tt ->
  Urllib._checknetloc host2 = Ok tt ->
  Str.forallb path_char rest = true ->
  query_or_fragment suffix1 = true ->
  query_or_fragment suffix2 = true ->
  Str.strip u1
  = (String c1 sch1 ++ "://" ++ host1 ++ "/uploads/" ++ rest ++ suffix1)%string ->
  Str.strip u2
  = (String c2 sch2 ++ "://" ++ host2 ++ "/uploads/" ++ rest ++ suffix2)%string ->
  local_upload_path_from_url s (PyStr u1)
  = local_upload_path_from_url s (PyStr u2).
Proof.
  intros A1 A2 S1 S2 H1 H2 N1 N2 Hr Q1 Q2 E1 E2.
  rewrite (@resolver_upload_url P s _ _ _ _ _ _ A1 S1 H1 N1 Hr Q1 E1).
  now rewrite (@resolver_upload_url P s _ _ _ _ _ _ A2 S2 H2 N2 Hr Q2 E2).
Qed.

Lemma X6_witness :
  MemFS.resolve_url MemFS.sample (PyStr "http://127.0.0.1:8000/uploads/a.jpg")
  = MemFS.resolve_url MemFS.sample
      (PyStr "ftp://evil.example/uploads/a.jpg#x?y").
Proof.
  apply (@X6_scheme_host_query_are_ignored MemFS.platform MemFS.sample
           "h" "f" "ttp" "tp" "127.0.0.1:8000" "evil.example" "a.jpg"
           "" "#x?y");
    reflexivity.
Defined.

(* ------------------------------------------------------------------ *)
(** ** Further properties of [delete_local_uploads] *)

Lemma subseq_snoc_keep (xs ys : list string) (a : string) :
  subseq xs ys -> subseq (xs ++ [a]) (ys ++ [a]).
Proof.
  induction 1 as [|xs y ys _ IH|x xs ys _ IH]; simpl.
  - apply subseq_keep, subseq_nil.
  - apply subseq_skip, IH.
  - apply subseq_keep, IH.
Qed.

Lemma subseq_snoc_skip (xs ys : list string) (a : string) :
  subseq xs ys -> subseq xs (ys ++ [a]).
Proof.
  induction 1 as [|xs y ys _ IH|x xs ys _ IH]; simpl.
  - apply subseq_skip, subseq_nil.
  - apply subseq_skip, IH.
  - apply subseq_keep, IH.
Qed.

Lemma string_urls_length (urls : list PyVal) :
  List.length (string_urls urls) <= List.length urls.
Proof.
  unfold string_urls. induction urls as [|x urls IH]; [ simpl; lia | ].
  cbn [flat_map]. rewrite length_app. cbn [List.length].
  destruct x as [| | |x'| |]; cbn [List.length]; try lia.
  destruct (isinstance_str (PyStr x') && truthy (PyStr (Str.strip x')));
    cbn [List.length]; lia.
Qed.

Lemma string_urls_of_strings (urls : list PyVal) :
  string_urls (map PyStr (string_urls urls)) = string_urls urls.
Proof.
  unfold string_urls. induction urls as [|x urls IH]; [ reflexivity | ].
  cbn [flat_map]. rewrite map_app, flat_map_app, IH. f_equal.
  destruct x as [| | |x'| |]; try reflexivity.
  cbn [isinstance_str truthy andb].
  destruct (negb (Str.strip x' =? "")) eqn:E; [ | reflexivity ].
  cbn [map flat_map isinstance_str truthy andb]. now rewrite E.
Qed.

Section Effects.
Context {P : Platform}.

(** The filesystem a run leaves is the one obtained by unlinking the
    paths it adds to [removed], in that order. *)
Lemma loop_unlinks (us : list string) :
  forall s rm c s' rm' c',
    delete_loop us (s, rm, c) = Ok (s', rm', c') ->
    exists ps,
      rm' = rm ++ map Pathlib.str ps /\ unlink_each s ps = Some s'.
Proof.
  induction us as [|u us IH]; intros s rm c s' rm' c' H;
    cbn [delete_loop] in H.
  - injection H as <- <- <-. exists []. now rewrite app_nil_r.
  - destruct (delete_one_step (s, rm, c) u) as (st1 & H1 & S1).
    rewrite H1 in H; cbn [bind] in H.
    inversion S1 as [| |? ? ? ? p s1 Hp He Hu]; subst;
      try (eapply IH; eassumption).
    destruct (IH _ _ _ _ _ _ H) as (ps & -> & Hps).
    exists (p :: ps). split.
    + now rewrite <- app_assoc.
    + cbn [unlink_each]. now rewrite Hu.
Qed.

Lemma candidates_at_none (s : fs) (us : list string) :
  (forall u, In u us -> local_upload_path_from_url s (PyStr u) = Ok None) ->
  candidates_at s us = [].
Proof.
  unfold candidates_at. induction us as [|u us IH]; intros H; simpl; auto.
  rewrite (H u) by (now left). apply IH. intros; apply H; now right.
Qed.

End Effects.

(** Property X7.  The only effect of [delete_local_uploads] on the
    filesystem is to unlink the files it lists in [removed], in the
    order of that list; when [removed] is empty the filesystem is left
    as it was. *)
Theorem X7_effect_is_unlinking_removed (P : Platform) (s s' : fs)
        (urls : list PyVal) (removed candidates : list string) :
  delete_local_uploads s urls = Ok (removed, candidates, s') ->
  (exists ps,
      map Pathlib.str ps = removed /\ unlink_each s ps = Some s')
  /\ (removed = [] -> s' = s).
Proof.
  intros H. apply delete_local_uploads_inv in H.
  destruct (@loop_unlinks P _ _ _ _ _ _ _ H) as (ps & E & U).
  simpl in E. subst removed. split; [ eauto | ].
  intros N. destruct ps; [ | discriminate N ].
  now injection U as <-.
Qed.

Lemma X7_witness :
  exists ps,
    map Pathlib.str ps
    = ["/srv/api/data/uploads/a.jpg"; "/srv/api/data/uploads/b.png"]
    /\ unlink_each (P := MemFS.platform) MemFS.sample ps = Some MemFS.cleaned.
Proof.
  apply (@X7_effect_is_unlinking_removed MemFS.platform MemFS.sample
           MemFS.cleaned
           [PyStr "/uploads/a.jpg"; PyStr "/uploads/locked.jpg";
            PyStr "http://host/uploads/b.png"]
           ["/srv/api/data/uploads/a.jpg"; "/srv/api/data/uploads/b.png"]
           ["/srv/api/data/uploads/a.jpg"; "/srv/api/data/uploads/locked.jpg";
            "/srv/api/data/uploads/b.png"]).
  reflexivity.
Defined.

(** Property X8.  [removed] is [candidates] with some entries left out,
    in the same order; and [candidates] has at most as many entries as
    the input list. *)
Theorem X8_removed_is_subsequence (P : Platform) (s s' : fs)
        (urls : list PyVal) (removed candidates : list string) :
  delete_local_uploads s urls = Ok (removed, candidates, s') ->
  subseq removed candidates
  /\ (set_semantics P -> List.length candidates <= List.length urls).
Proof.
  intros H. apply delete_local_uploads_inv in H. split.
  - apply (delete_loop_ind
             (fun st => subseq (snd (fst st)) (snd st))
             (set_iter (string_urls urls)))
      with (st := (s, [], [])) (st' := (s', removed, candidates)); auto.
    + intros st u st' _ I S; inversion S; subst; simpl in *;
        auto using subseq_snoc_keep, subseq_snoc_skip.
    + constructor.
  - intros Hset. destruct (Hset (string_urls urls)) as [Hnd Hin].
    destruct (@candidates_shape P _ Hnd _ _ _ _ _ _ H)
      as (sel & ent & Hc & Hs & Hi & F).
    simpl in Hc. subst ent.
    rewrite <- (Forall2_length F).
    etransitivity; [ apply (NoDup_incl_length Hs Hi) | ].
    etransitivity; [ | apply string_urls_length ].
    apply (NoDup_incl_length Hnd). intros x Hx. now apply Hin.
Qed.

Lemma X8_witness :
  subseq ["/srv/api/data/uploads/a.jpg"; "/srv/api/data/uploads/b.png"]
         ["/srv/api/data/uploads/a.jpg"; "/srv/api/data/uploads/locked.jpg";
          "/srv/api/data/uploads/b.png"]
  /\ 3 <= 4.
Proof.
  destruct (@X8_removed_is_subsequence MemFS.platform MemFS.sample
              MemFS.cleaned
              [PyStr "/uploads/a.jpg"; PyStr "/uploads/locked.jpg"; PyNone;
               PyStr "http://host/uploads/b.png"]
              ["/srv/api/data/uploads/a.jpg"; "/srv/api/data/uploads/b.png"]
              ["/srv/api/data/uploads/a.jpg";
               "/srv/api/data/uploads/locked.jpg";
               "/srv/api/data/uploads/b.png"]
              eq_refl) as [H1 H2].
  split; [ exact H1 | exact (H2 MemFacts.sets) ].
Defined.

(** Property X9.  When none of the paths the input resolves to can be
    removed (the file is missing, or its unlink fails), the call reports
    every resolved path as a candidate, removes nothing and leaves the
    filesystem as it was. *)
Theorem X9_nothing_removable (P : Platform) (s : fs) (urls : list PyVal) :
  set_semantics P ->
  (forall u p,
      In (PyStr u) urls ->
      local_upload_path_from_url s (PyStr u) = Ok (Some p) ->
      ~ removable s p) ->
  delete_local_uploads s urls
  = Ok ([], candidates_at s (set_iter (string_urls urls)), s).
Proof.
  intros Hset Hq. unfold delete_local_uploads.
  rewrite quiet_run; [ reflexivity | ].
  intros u p Hin. apply Hq.
  apply (Hset (string_urls urls)) in Hin. now apply in_string_urls in Hin.
Qed.

Lemma X9_witness :
  MemFS.delete MemFS.cleaned
    [PyStr "/uploads/locked.jpg"; PyStr "/uploads/missing.jpg"]
  = Ok ([],
        ["/srv/api/data/uploads/locked.jpg"; "/srv/api/data/uploads/missing.jpg"],
        MemFS.cleaned).
Proof.
  apply (@X9_nothing_removable MemFS.platform MemFS.cleaned
           [PyStr "/uploads/locked.jpg"; PyStr "/uploads/missing.jpg"]
           MemFacts.sets).
  intros u p Hin Hp R. apply MemFacts.removable_iff in R as (_ & R & _).
  simpl in Hin. destruct Hin as [E|[E|[]]]; injection E as <-;
    vm_compute in Hp; injection Hp as <-; vm_compute in R; discriminate R.
Defined.

(** Property X10.  When no non-blank string of the input resolves - in
    particular for the empty list and for a list without strings - the
    call returns two empty lists and leaves the filesystem as it was. *)
Theorem X10_nothing_recognised (P : Platform) (s : fs) (urls : list PyVal) :
  set_semantics P ->
  (forall u,
      In (PyStr u) urls -> Str.strip u <> "" ->
      local_upload_path_from_url s (PyStr u) = Ok None) ->
  delete_local_uploads s urls = Ok ([], [], s).
Proof.
  intros Hset Hn.
  assert (A : forall u,
             In u (set_iter (string_urls urls)) ->
             local_upload_path_from_url s (PyStr u) = Ok None).
  { intros u Hin. apply (Hset (string_urls urls)) in Hin.
    apply in_string_urls in Hin as [H1 H2]. auto. }
  unfold delete_local_uploads. rewrite quiet_run.
  - now rewrite (candidates_at_none _ _ A).
  - intros u p Hin Hp. rewrite (A u Hin) in Hp. discriminate Hp.
Qed.

Lemma X10_witness :
  MemFS.delete MemFS.sample
    [PyNone; PyInt 4; PyStr "   "; PyStr "https://external.com/c.jpg";
     PyList [PyStr "/uploads/a.jpg"]]
  = Ok ([], [], MemFS.sample).
Proof.
  apply (@X10_nothing_recognised MemFS.platform MemFS.sample _ MemFacts.sets).
  intros u Hin Hne. simpl in Hin.
  repeat (destruct Hin as [E|Hin]; [ try discriminate E | ]);
    try contradiction; injection E as <-;
    try reflexivity; exfalso; apply Hne; reflexivity.
Defined.

(** Property X11.  Entries that are not strings and blank strings have
    no influence at all: the call returns the same result, and leaves
    the same filesystem, as on the list of the non-blank strings of its
    input. *)
Theorem X11_other_entries_are_dropped (P : Platform) (s : fs)
        (urls : list PyVal) :
  delete_local_uploads s urls
  = delete_local_uploads s (map PyStr (string_urls urls)).
Proof.
  unfold delete_local_uploads. now rewrite string_urls_of_strings.
Qed.

(** Property X12.  On a sequential filesystem, once the call has
    returned, no path that a non-blank string of the input resolves to
    can be removed any more: each such file is gone or cannot be
    deleted. *)
Theorem X12_nothing_left_to_remove (P : Platform) (s s' : fs)
        (urls : list PyVal) (removed candidates : list string) :
  set_semantics P ->
  deletion_laws P ->
  canon_stable P ->
  delete_local_uploads s urls = Ok (removed, candidates, s') ->
  forall u p,
    In (PyStr u) urls ->
    Str.strip u <> "" ->
    local_upload_path_from_url s' (PyStr u) = Ok (Some p) ->
    ~ removable s' p.
Proof.
  intros Hset L C H u p Hin Hne Hp. apply delete_local_uploads_inv in H.
  destruct (@first_run P _ L C _ _ _ _ _ _ H) as (U & _ & Hq).
  apply (Hq u).
  - apply (Hset (string_urls urls)). now apply in_string_urls.
  - rewrite <- Hp. symmetry. apply resolver_ext, unlinks_resolve; auto.
Qed.

Lemma X12_witness :
  ~ removable (P := MemFS.platform) MemFS.cleaned (MemFS.uploads_file "a.jpg").
Proof.
  apply (@X12_nothing_left_to_remove MemFS.platform MemFS.sample MemFS.cleaned
           [PyStr "/uploads/a.jpg"; PyStr "http://host/uploads/b.png"]
           ["/srv/api/data/uploads/a.jpg"; "/srv/api/data/uploads/b.png"]
           ["/srv/api/data/uploads/a.jpg"; "/srv/api/data/uploads/b.png"]
           MemFacts.sets MemFacts.deletion MemFacts.canon eq_refl
           "/uploads/a.jpg").
  - simpl. auto.
  - vm_compute. discriminate.
  - reflexivity.
Defined.

(* ------------------------------------------------------------------ *)
(** ** Without symbolic links nothing outside the uploads directory is
       touched *)

Lemma split_plain (c : ascii) (x : string) :
  Str.contains c x = false -> Str.split c x = [x].
Proof.
  unfold Str.contains. induction x as [|a r IH]; intros H; [ reflexivity | ].
  cbn [Str.mem] in H. apply orb_false_elim in H as [Ha Hr].
  cbn [Str.split]. rewrite Ha, (IH Hr). reflexivity.
Qed.

Lemma split_append (c : ascii) (x t : string) :
  Str.contains c x = false ->
  Str.split c (x ++ String c t) = x :: Str.split c t.
Proof.
  unfold Str.contains. induction x as [|a r IH]; intros H.
  - cbn [append Str.split]. now rewrite Ascii.eqb_refl.
  - cbn [Str.mem] in H. apply orb_false_elim in H as [Ha Hr].
    cbn [append Str.split]. rewrite Ha, (IH Hr). reflexivity.
Qed.

Lemma split_join (l : list string) :
  Forall clean_segment l -> l <> [] ->
  Str.split "/" (Str.join "/" l) = l.
Proof.
  unfold Str.join. induction l as [|x l IH]; intros F Hne; [ now elim Hne | ].
  inversion F as [|? ? (_ & _ & Hx) Fl]; subst.
  destruct l as [|y l].
  - cbn [String.concat]. now apply split_plain.
  - specialize (IH Fl ltac:(discriminate)).
    change (String.concat "/" (x :: y :: l))
      with (x ++ String "/" (String.concat "/" (y :: l)))%string.
    set (t := String.concat "/" (y :: l)) in *.
    rewrite split_append by exact Hx. now rewrite IH.
Qed.

Lemma filter_clean (l : list string) :
  Forall clean_segment l -> filter Pathlib.keep_segment l = l.
Proof.
  induction 1 as [|x l (H1 & H2 & _) _ IH]; [ reflexivity | ].
  cbn [filter]. replace (Pathlib.keep_segment x) with true;
    [ now rewrite IH | ].
  unfold Pathlib.keep_segment.
  apply String.eqb_neq in H1, H2. now rewrite H1, H2.
Qed.

(** [str] and parsing are inverse on an absolute path with clean
    segments. *)
Lemma parse_str (l : list string) :
  Forall clean_segment l -> l <> [] ->
  Pathlib.parse (Pathlib.str (mkPath "/" l)) = mkPath "/" l.
Proof.
  intros F Hne. unfold Pathlib.str. cbn [root parts].
  change ("/" ++ Str.join "/" l)%string with (String "/" (Str.join "/" l)).
  cbn [String.eqb]. 
  assert (H0 : exists c r, Str.join "/" l = String c r /\ (c =? "/")%char = false).
  { destruct l as [|x l]; [ now elim Hne | ].
    inversion F as [|? ? (Hx1 & _ & Hx3) _]; subst.
    destruct x as [|c x]; [ now elim Hx1 | ].
    unfold Str.contains in Hx3. cbn [Str.mem] in Hx3.
    apply orb_false_elim in Hx3 as [Hc _].
    exists c. unfold Str.join. rewrite Ascii.eqb_sym.
    destruct l as [|y l]; cbn [String.concat append]; eauto. }
  destruct H0 as (c & r & E & Hc).
  unfold Pathlib.parse, Pathlib.splitroot.
  rewrite Ascii.eqb_refl.
  assert (L : Str.lstrip (String "/" (Str.join "/" l)) "/" = Str.join "/" l).
  { unfold Str.lstrip. cbn [Str.lstrip_by Str.mem]. rewrite Ascii.eqb_refl.
    cbn [orb]. rewrite E. cbn [Str.lstrip_by Str.mem].
    rewrite (Ascii.eqb_sym "/" c), Hc. reflexivity. }
  rewrite L. cbn [String.length].
  replace (S (String.length (Str.join "/" l)) - String.length (Str.join "/" l))
    with 1 by lia.
  cbn [Nat.eqb]. rewrite split_join, filter_clean by assumption. reflexivity.
Qed.

Lemma lookup_remove_other (k k' : list string) (s : MemFS.state) :
  MemFS.parts_eqb k' k = false ->
  MemFS.lookup k' (MemFS.remove k s) = MemFS.lookup k' s.
Proof.
  intros H. induction s as [|[k0 n0] s IH]; simpl; [ reflexivity | ].
  destruct (MemFS.parts_eqb k k0) eqn:E.
  - apply MemFacts.parts_eqb_eq in E. subst k0. now rewrite H.
  - simpl. now rewrite IH.
Qed.

(** What the loop unlinks on the link-free platform is an entry of the
    uploads directory. *)
Lemma unlinked_key (m m1 : MemFS.state) (v : PyVal) (p : Path) :
  MemFS.resolve_url m v = Ok (Some p) ->
  Path_exists (P := MemFS.platform) m p = Ok true ->
  Path_unlink (P := MemFS.platform) true m p = Ok m1 ->
  exists rel,
    m1 = MemFS.remove (["srv"; "api"; "data"; "uploads"] ++ rel) m.
Proof.
  intros Hp He Hu. rewrite (MemFacts.unlink_removes m p He Hu).
  pose proof (resolver_guard (P := MemFS.platform) m v Hp) as G.
  apply resolver_joined in Hp as [rel0 ->].
  rewrite joinpath_relative in G |- *.
  change (root (UPLOADS_DIR (P := MemFS.platform))) with "/" in *.
  change (parts (UPLOADS_DIR (P := MemFS.platform)))
    with ["srv"; "api"; "data"; "uploads"] in *.
  set (segs := Pathlib.segments (Str.lstrip rel0 "/\")) in *.
  assert (F : Forall clean_segment (["srv"; "api"; "data"; "uploads"] ++ segs)).
  { apply Forall_app. split; [ | apply segments_clean ].
    repeat constructor; try discriminate. }
  unfold MemFS.key_of. rewrite parse_str by (auto; discriminate).
  cbn [parts].
  apply is_subpath_spec in G as (cp & cr & Hcp & Hcr & _ & rel & Hrel).
  cbn [resolve MemFS.platform] in Hcp, Hcr. unfold MemFS.mem_resolve in Hcp, Hcr.
  cbn [parts root] in Hcp.
  destruct (existsb Str.has_nul (["srv"; "api"; "data"; "uploads"] ++ segs));
    [ discriminate Hcp | ].
  injection Hcp as <-. vm_compute in Hcr. injection Hcr as <-.
  exists rel. f_equal. exact Hrel.
Qed.

(** Property X13.  On the platform without symbolic links, every entry
    of the table that a call changes lies in the uploads directory:
    nothing outside it is touched. *)
Theorem X13_nothing_outside_is_touched (m m' : MemFS.state)
        (urls : list PyVal) (removed candidates : list string) :
  MemFS.delete m urls = Ok (removed, candidates, m') ->
  forall k,
    MemFS.lookup k m' <> MemFS.lookup k m ->
    exists rel, k = ["srv"; "api"; "data"; "uploads"] ++ rel.
Proof.
  intros H. apply (delete_local_uploads_inv (P := MemFS.platform)) in H.
  apply (delete_loop_ind (P := MemFS.platform)
           (fun st => forall k,
                MemFS.lookup k (fst (fst st)) <> MemFS.lookup k m ->
                exists rel, k = ["srv"; "api"; "data"; "uploads"] ++ rel)
           (set_iter (Platform := MemFS.platform) (string_urls urls)))
    with (st := (m, [], [])) (st' := (m', removed, candidates)); auto.
  - intros st u st' _ I S.
    inversion S as [| |? ? ? ? p s1 Hp He Hu]; subst; cbn [fst] in *; auto.
    destruct (@unlinked_key s s1 (PyStr u) p Hp He Hu) as [rel ->].
    intros k Hk.
    destruct (MemFS.parts_eqb k (["srv"; "api"; "data"; "uploads"] ++ rel))
      eqn:E.
    + apply MemFacts.parts_eqb_eq in E. eauto.
    + rewrite lookup_remove_other in Hk by exact E. auto.
  - cbn [fst]. intros k Hk. now elim Hk.
Qed.

Lemma X13_witness :
  exists rel, ["srv"; "api"; "data"; "uploads"; "a.jpg"]
              = ["srv"; "api"; "data"; "uploads"] ++ rel.
Proof.
  apply (@X13_nothing_outside_is_touched MemFS.sample MemFS.cleaned
           [PyStr "/uploads/a.jpg"; PyStr "http://host/uploads/b.png";
            PyStr "/uploads/../secret.txt"]
           ["/srv/api/data/uploads/a.jpg"; "/srv/api/data/uploads/b.png"]
           ["/srv/api/data/uploads/a.jpg"; "/srv/api/data/uploads/b.png"]
           eq_refl).
  vm_compute. discriminate.
Defined.
